(** * Memory puzzle (memory.py): board model and click handling

    A shallow embedding of the game logic of [memory.py]: board generation,
    the reveal-state grid, the click handler with its two-box selection, the
    pixel-to-box hit test and the list helpers they rest on.

    Python integers are [Z]; lists are [list]; an exception is a value of
    [Res]; mutation of the shared [revealed] and [selection] lists is explicit
    state passing; [random.shuffle] draws from an explicit entropy list. *)

From Stdlib Require Import ZArith List Lia.
From stdpp Require Import base decidable option numbers list.

Open Scope Z_scope.

(** ** Python primitives used by the program *)

Module Py.

Inductive Exception : Type :=
| IndexError
| ValueError
| AssertionError
| OverflowError
| ZeroDivisionError.

(** The result of a call: a value, or a raised exception. *)
Inductive Res (A : Type) : Type :=
| Ok (a : A)
| Raise (e : Exception).
Arguments Ok {A} a.
Arguments Raise {A} e.

Definition bind {A B} (m : Res A) (k : A -> Res B) : Res B :=
  match m with
  | Ok a => k a
  | Raise e => Raise e
  end.

Definition len {A} (l : list A) : Z := Z.of_nat (length l).

(** *** int(a / b)

    [a / b] on two integers is the quotient rounded to the nearest binary64
    float, ties to the even mantissa; it raises [ZeroDivisionError] for a
    zero divisor and [OverflowError] when the rounded quotient does not fit
    a float.  [int] then drops the fraction of the float. *)

(** The integer nearest to [n / d], ties to even, for [0 <= n] and
    [0 < d]. *)
Definition round_half_even (n d : Z) : Z :=
  let q := n / d in
  let r := n mod d in
  if 2 * r <? d then q
  else if d <? 2 * r then q + 1
  else if Z.even q then q else q + 1.

(** The float nearest to [n / d], for [0 <= n] and [0 < d], as a mantissa
    [m <= 2^53] and an exponent [u], worth [m * 2^u]; [None] when it would
    reach [2^1024].  With [2^e <= n / d < 2^(e+1)] the mantissa has 53 bits
    at exponent [e - 52], or fewer at the least exponent [-1074]. *)
Definition ratio_to_float (n d : Z) : option (Z * Z) :=
  if n =? 0 then Some (0, 0)
  else
    let e0 := Z.log2 n - Z.log2 d in
    let below := if 0 <=? e0 then n <? d * 2 ^ e0 else n * 2 ^ (- e0) <? d in
    let e := if below : bool then e0 - 1 else e0 in
    let u := Z.max (e - 52) (- 1074) in
    if 0 <=? u then
      let m := round_half_even n (d * 2 ^ u) in
      if 2 ^ 1024 <=? m * 2 ^ u then None else Some (m, u)
    else Some (round_half_even (n * 2 ^ (- u)) d, u).

(** [int(a / b)] *)
Definition int_truediv (a b : Z) : Res Z :=
  if b =? 0 then Raise ZeroDivisionError
  else
    match ratio_to_float (Z.abs a) (Z.abs b) with
    | None => Raise OverflowError
    | Some (m, u) =>
        let t := if 0 <=? u then m * 2 ^ u else m / 2 ^ (- u) in
        Ok (Z.sgn a * Z.sgn b * t)
    end.

(** [range(start, stop, step)]: CPython computes the length first and
    then indexes; a zero step raises [ValueError]. *)
Definition range_len (start stop step : Z) : nat :=
  Z.to_nat (if 0 <? step
            then (stop - start + step - 1) / step
            else (start - stop - step - 1) / (- step)).

Definition range3 (start stop step : Z) : Res (list Z) :=
  if step =? 0 then Raise ValueError
  else Ok ((fun k => start + Z.of_nat k * step) <$> seq 0 (range_len start stop step)).

(** [range(n)] *)
Definition range (n : Z) : list Z := Z.of_nat <$> seq 0 (Z.to_nat n).

(** A possibly negative index, counted from the end when negative. *)
Definition wrap {A} (l : list A) (i : Z) : Z :=
  if i <? 0 then i + len l else i.

(** [l[i]] *)
Definition getitem {A} (l : list A) (i : Z) : Res A :=
  let k := wrap l i in
  if k <? 0 then Raise IndexError
  else match l !! Z.to_nat k with
       | Some a => Ok a
       | None => Raise IndexError
       end.

(** [l[i] = v] *)
Definition setitem {A} (l : list A) (i : Z) (v : A) : Res (list A) :=
  let k := wrap l i in
  if (k <? 0) || (len l <=? k) then Raise IndexError
  else Ok (<[Z.to_nat k := v]> l).

(** [l[start:stop]]: both bounds are wrapped and clamped, never an error. *)
Definition slice {A} (l : list A) (start stop : Z) : list A :=
  drop (Z.to_nat (wrap l start)) (take (Z.to_nat (wrap l stop)) l).

(** [l * n] *)
Definition mul {A} (l : list A) (n : Z) : list A :=
  concat (replicate (Z.to_nat n) l).

(** [l.pop()]: removes and returns the last element. *)
Definition pop {A} (l : list A) : Res (A * list A) :=
  match reverse l with
  | [] => Raise IndexError
  | a :: r => Ok (a, reverse r)
  end.

(** [[body for x in xs]] where [body] reads and updates a state [S]. *)
Fixpoint comprehension {S B A} (body : B -> S -> Res (A * S))
         (xs : list B) (s : S) : Res (list A * S) :=
  match xs with
  | [] => Ok ([], s)
  | x :: xs' =>
      match body x s with
      | Raise e => Raise e
      | Ok (a, s1) =>
          match comprehension body xs' s1 with
          | Raise e => Raise e
          | Ok (r, s2) => Ok (a :: r, s2)
          end
      end
  end.

(** [for x in xs: body] over a threaded state. *)
Fixpoint for_each {S B} (body : B -> S -> Res S) (xs : list B) (s : S) : Res S :=
  match xs with
  | [] => Ok s
  | x :: xs' => bind (body x s) (for_each body xs')
  end.

(** *** random.shuffle

    The library shuffles in place, from the last index down to 1:
    [j = randbelow(i + 1); x[i], x[j] = x[j], x[i]].  The generator is an
    explicit list of raw draws; a draw is reduced below its bound, and an
    exhausted list keeps answering 0. *)
Definition Rng : Type := list nat.

Definition randbelow (n : nat) (g : Rng) : nat * Rng :=
  match g with
  | [] => (0%nat, [])
  | r :: g' => ((r mod n)%nat, g')
  end.

(** [x[i], x[j] = x[j], x[i]] *)
Definition swap {A} (x : list A) (i j : nat) : list A :=
  match x !! i, x !! j with
  | Some xi, Some xj => <[j := xi]> (<[i := xj]> x)
  | _, _ => x
  end.

Fixpoint shuffle_from {A} (i : nat) (x : list A) (g : Rng) : list A * Rng :=
  match i with
  | O => (x, g)
  | S i' =>
      let (j, g') := randbelow (S i) g in
      shuffle_from i' (swap x i j) g'
  end.

Definition shuffle {A} (x : list A) (g : Rng) : list A * Rng :=
  shuffle_from (length x - 1)%nat x g.

End Py.
Import Py.

Notation "'let*' x ':=' m 'in' k" := (Py.bind m (fun x => k))
  (at level 10, x pattern, m at level 100, k at level 200).

(** ** Module constants *)

Definition FPS : Z := 30.
Definition WINDOWWIDTH : Z := 640.
Definition WINDOWHEIGHT : Z := 480.
Definition REVEALSPEED : Z := 5.
Definition BOXSIZE : Z := 40.
Definition ICONSIZE : Z := 30.
Definition GAPSIZE : Z := 10.
Definition BOARDWIDTH : Z := 10.
Definition BOARDHEIGHT : Z := 7.

(** The two margins are computed when the module is loaded; the
    divisions do not raise, and the constants are their values. *)
Definition XMARGIN : Z :=
  Eval vm_compute in
    match int_truediv (WINDOWWIDTH - BOARDWIDTH * (BOXSIZE + GAPSIZE)) 2 with
    | Ok margin => margin
    | Raise _ => 0
    end.
Definition YMARGIN : Z :=
  Eval vm_compute in
    match int_truediv (WINDOWHEIGHT - BOARDHEIGHT * (BOXSIZE + GAPSIZE)) 2 with
    | Ok margin => margin
    | Raise _ => 0
    end.

(** The five shape names and the seven palette colours.  A [pygame.Color]
    compares by its RGBA value; the seven named colours have pairwise
    different values, so they are kept apart as constructors. *)
Inductive Shape : Type := donut | square | diamond | triangle | circle.
Inductive Color : Type := red | green | blue | yellow | orange | purple | cyan.

Global Instance Shape_eq_dec : EqDecision Shape.
Proof. solve_decision. Defined.
Global Instance Color_eq_dec : EqDecision Color.
Proof. solve_decision. Defined.

Definition Icon : Type := Shape * Color.
Definition Box : Type := Z * Z.

Definition ALLCOLORS : list Color := [red; green; blue; yellow; orange; purple; cyan].
Definition ALLSHAPES : list Shape := [donut; square; diamond; triangle; circle].

(** ** splitIntoGroupsOf *)

Definition splitIntoGroupsOf {A} (size : Z) (items : list A) : Res (list (list A)) :=
  let* starts := range3 0 (len items) size in
  Ok ((fun start => (fun item => item) <$> slice items start (start + size)) <$> starts).

(** ** The reveal-state grid *)

Definition generateRevealedBoxesData (revealed : bool) (width height : Z)
  : list (list bool) :=
  (fun _ => mul [revealed] height) <$> range width.

Definition setIconVisible (revealed : list (list bool)) (box : Box) (visible : bool)
  : Res (list (list bool)) :=
  let* col := getitem revealed box.1 in
  let* col' := setitem col box.2 visible in
  setitem revealed box.1 col'.

Definition iconVisible (revealed : list (list bool)) (box : Box) : Res bool :=
  let* col := getitem revealed box.1 in
  getitem col box.2.

(** [hasWon]: the loop returns at the first column that holds a [False]. *)
Fixpoint hasWon (revealed : list (list bool)) : bool :=
  match revealed with
  | [] => true
  | col :: rest => if bool_decide (false ∈ col) then false else hasWon rest
  end.

(** ** Geometry: from a box to its rectangle, from a pixel to its box *)

(** A [pygame.Rect]; [collidepoint] holds for the points with
    [left <= x < left + width] and [top <= y < top + height]. *)
Record Rect : Type := mkRect { left : Z; top : Z; width : Z; height : Z }.

Definition collidepoint (r : Rect) (pos : Z * Z) : bool :=
  (left r <=? pos.1) && (pos.1 <? left r + width r) &&
  (top r <=? pos.2) && (pos.2 <? top r + height r).

Definition getBoxPos (box : Box) : Z * Z :=
  (box.1 * (BOXSIZE + GAPSIZE) + XMARGIN,
   box.2 * (BOXSIZE + GAPSIZE) + YMARGIN).

Definition getBoxRect (box : Box) : Rect :=
  let pos := getBoxPos box in mkRect pos.1 pos.2 BOXSIZE BOXSIZE.

(** [((i, j) for i in range(BOARDWIDTH) for j in range(BOARDHEIGHT))] *)
Definition allBoxes : list Box :=
  flat_map (fun i => (fun j => (i, j)) <$> range BOARDHEIGHT) (range BOARDWIDTH).

(** The first box whose rectangle holds the position, [None] in the margin
    and in the gaps. *)
Definition getBoxCell (pos : Z * Z) : option Box :=
  List.find (fun box => collidepoint (getBoxRect box) pos) allBoxes.

(** ** The board *)

Definition getShapeAndColor (board : list (list Icon)) (box : Box) : Res Icon :=
  let* col := getitem board box.1 in
  getitem col box.2.

(** Drawing is outside the model; what is kept of it is the board lookup
    each drawn icon makes, which can raise. *)
Definition drawIcon (board : list (list Icon)) (box : Box) : Res unit :=
  let* icon := getShapeAndColor board box in
  Ok tt.

Definition drawBoxCovers (board : list (list Icon)) (boxes : list Box) (coverage : Z)
  : Res unit :=
  for_each (fun box _ => drawIcon board box) boxes tt.

Definition revealBoxesAnimation (board : list (list Icon)) (group : list Box) : Res unit :=
  let* coverages := range3 BOXSIZE (- REVEALSPEED - 1) (- REVEALSPEED) in
  for_each (fun coverage _ => drawBoxCovers board group coverage) coverages tt.

Definition coverBoxesAnimation (board : list (list Icon)) (group : list Box) : Res unit :=
  let* coverages := range3 0 (BOXSIZE + REVEALSPEED) REVEALSPEED in
  for_each (fun coverage _ => drawBoxCovers board group coverage) coverages tt.

Definition drawBoard (board : list (list Icon)) (revealed : list (list bool)) : Res unit :=
  for_each (fun box _ =>
              let* visible := iconVisible revealed box in
              if visible then drawIcon board box else Ok tt)
           allBoxes tt.

(** [[(shape, color) for shape in ALLSHAPES for color in ALLCOLORS]]; the two
    module tuples are read when the function runs, so they are arguments. *)
Definition iconCatalog (shapes : list Shape) (colors : list Color) : list Icon :=
  flat_map (fun shape => (fun color => (shape, color)) <$> colors) shapes.

Definition getRandomizedBoard (shapes : list Shape) (colors : list Color)
           (width height : Z) (g : Rng) : Res (list (list Icon) * Rng) :=
  let allIcons := iconCatalog shapes colors in
  let (allIcons, g) := shuffle allIcons g in
  let* numIcons := int_truediv (width * height) 2 in
  let icons := mul (slice allIcons 0 numIcons) 2 in
  let (icons, g) := shuffle icons g in
  let* (board, _) :=
    comprehension
      (fun x => comprehension (fun y icons => pop icons) (range height))
      (range width) icons in
  Ok (board, g).

(** The two [assert] statements at module level, on the configured
    dimensions and catalog. *)
Definition moduleAsserts (boardwidth boardheight : Z)
           (shapes : list Shape) (colors : list Color) : Res unit :=
  if negb ((boardwidth * boardheight) mod 2 =? 0) then Raise AssertionError
  else if negb (boardwidth * boardheight <=? len colors * len shapes * 2)
       then Raise AssertionError
       else Ok tt.

(** [assert test] *)
Definition pyAssert (test : bool) : Res unit :=
  if test then Ok tt else Raise AssertionError.

(** The statements the module runs when it is loaded, in their order: the
    assert on the cell count, the two margins, the assert on the catalog.
    The configured dimensions and the catalog are arguments; the result is
    the pair of margins. *)
Definition moduleImport (boardwidth boardheight : Z)
           (shapes : list Shape) (colors : list Color) : Res (Z * Z) :=
  let* _ := pyAssert ((boardwidth * boardheight) mod 2 =? 0) in
  let* xmargin := int_truediv (WINDOWWIDTH - boardwidth * (BOXSIZE + GAPSIZE)) 2 in
  let* ymargin := int_truediv (WINDOWHEIGHT - boardheight * (BOXSIZE + GAPSIZE)) 2 in
  let* _ := pyAssert (boardwidth * boardheight <=? len colors * len shapes * 2) in
  Ok (xmargin, ymargin).

(** The script up to its first board: the module is loaded, then [main]
    starts and its [createBoard] calls
    [getRandomizedBoard(BOARDWIDTH, BOARDHEIGHT)]. *)
Definition firstBoard (boardwidth boardheight : Z)
           (shapes : list Shape) (colors : list Color) (g : Rng)
  : Res (list (list Icon) * Rng) :=
  let* _ := moduleImport boardwidth boardheight shapes colors in
  getRandomizedBoard shapes colors boardwidth boardheight g.

Definition startGameAnimation (board : list (list Icon)) (g : Rng) : Res Rng :=
  let coveredBoxes := generateRevealedBoxesData false BOARDWIDTH BOARDHEIGHT in
  let (boxes, g) := shuffle allBoxes g in
  let* boxGroups := splitIntoGroupsOf 8 boxes in
  let* _ := drawBoard board coveredBoxes in
  let* _ := for_each (fun group _ =>
                        let* _ := revealBoxesAnimation board group in
                        coverBoxesAnimation board group)
                     boxGroups tt in
  Ok g.

Definition createBoard (g : Rng) : Res (list (list Icon) * list (list bool) * Rng) :=
  let* (board, g) := getRandomizedBoard ALLSHAPES ALLCOLORS BOARDWIDTH BOARDHEIGHT g in
  let revealed := generateRevealedBoxesData false BOARDWIDTH BOARDHEIGHT in
  let* g := startGameAnimation board g in
  Ok (board, revealed, g).

(** ** The click handler *)

(** What [logging.debug] is called with. *)
Inductive LogRecord : Type :=
| DebugSelection (selection : list Box)
| DebugMatch
| DebugMismatch.

(** The objects [handleClick] mutates: the reveal-state grid and the
    selection list of [main], and the log. *)
Record Game : Type := mkGame {
  revealedBoxes : list (list bool);
  selection : list Box;
  debugLog : list LogRecord
}.

Definition handleClick (board : list (list Icon)) (mousePos : Z * Z) (st : Game)
  : Res Game :=
  match getBoxCell mousePos with
  | Some box =>
      if bool_decide (box ∈ selection st) then Ok st
      else
        let selection1 := selection st ++ [box] in
        let* revealed1 := setIconVisible (revealedBoxes st) box true in
        let* _ := revealBoxesAnimation board [box] in
        let log1 := debugLog st ++ [DebugSelection selection1] in
        if 1 <? len selection1 then
          let* box1 := getitem selection1 0 in
          let* icon1 := getShapeAndColor board box1 in
          let* box2 := getitem selection1 1 in
          let* icon2 := getShapeAndColor board box2 in
          if bool_decide (icon1 = icon2) then
            Ok (mkGame revealed1 [] (log1 ++ [DebugMatch]))
          else
            let log2 := log1 ++ [DebugMismatch] in
            let* _ := coverBoxesAnimation board selection1 in
            let* revealed2 :=
              for_each (fun s revealed => setIconVisible revealed s false)
                       selection1 revealed1 in
            Ok (mkGame revealed2 [] log2)
        else Ok (mkGame revealed1 selection1 log1)
  | None => Ok st
  end.

(** A sequence of clicks, each handled to completion before the next. *)
Definition handleClicks (board : list (list Icon)) (clicks : list (Z * Z)) (st : Game)
  : Res Game :=
  for_each (handleClick board) clicks st.

(** ** The main loop *)

(** The two background colours [gameWonAnimation] alternates. *)
Inductive ScreenColor : Type := navy | grey.
Definition BGCOLOR : ScreenColor := navy.
Definition LIGHTBGCOLOR : ScreenColor := grey.

(** The events [main] reacts to; an event of any other type is skipped. *)
Inductive Event : Type :=
| MOUSEMOTION (pos : Z * Z)
| MOUSEBUTTONUP (pos : Z * Z)
| QUIT
| OtherEvent.

Global Instance Event_eq_dec : EqDecision Event.
Proof. solve_decision. Defined.

(** The log of [main]: what [handleClick] logs, and the colour list
    [gameWonAnimation] logs. *)
Inductive MainLogRecord : Type :=
| ClickLog (record : LogRecord)
| DebugColors (colors : list ScreenColor).

(** [doBoxHighlight]: the result is the box the highlight is drawn around,
    if any; the reveal-state is read only when the pointer is over a box. *)
Definition doBoxHighlight (revealed : list (list bool)) (mousePos : Z * Z)
  : Res (option Box) :=
  match getBoxCell mousePos with
  | Some box =>
      let* visible := iconVisible revealed box in
      if negb visible then Ok (Some box) else Ok None
  | None => Ok None
  end.

Definition gameWonAnimation (board : list (list Icon)) (log : list MainLogRecord)
  : Res (list MainLogRecord) :=
  let coveredBoxes := generateRevealedBoxesData true BOARDWIDTH BOARDHEIGHT in
  let colors := mul [LIGHTBGCOLOR; BGCOLOR] 6 in
  let log := log ++ [DebugColors colors] in
  let* _ := for_each (fun color _ => drawBoard board coveredBoxes) colors tt in
  Ok log.

(** The event loop of one frame: the pointer position and the click flag
    after the events, or [None] when a [QUIT] event ends the program. *)
Fixpoint pollEvents (events : list Event) (mousePos : Z * Z) (mouseClicked : bool)
  : option (Z * Z * bool) :=
  match events with
  | [] => Some (mousePos, mouseClicked)
  | MOUSEMOTION pos :: rest => pollEvents rest pos mouseClicked
  | MOUSEBUTTONUP pos :: rest => pollEvents rest pos true
  | QUIT :: _ => None
  | OtherEvent :: rest => pollEvents rest mousePos mouseClicked
  end.

(** The variables of [main] that live across frames, with the generator
    and the log. *)
Record Main : Type := mkMain {
  mousePos : Z * Z;
  mainBoard : list (list Icon);
  mainRevealed : list (list bool);
  mainSelection : list Box;
  mainLog : list MainLogRecord;
  mainRng : Rng
}.

(** One pass through the body of [while True], on the events
    [pygame.event.get()] returns in it; [None] when the program exits. *)
Definition mainFrame (events : list Event) (st : Main) : Res (option Main) :=
  let* _ := drawBoard (mainBoard st) (mainRevealed st) in
  match pollEvents events (mousePos st) false with
  | None => Ok None
  | Some (pos, mouseClicked) =>
      let* _ := doBoxHighlight (mainRevealed st) pos in
      let before := mkGame (mainRevealed st) (mainSelection st) [] in
      let* game := if mouseClicked : bool
                   then handleClick (mainBoard st) pos before
                   else Ok before in
      let log := mainLog st ++ (ClickLog <$> debugLog game) in
      if hasWon (revealedBoxes game) then
        let* log := gameWonAnimation (mainBoard st) log in
        let* (board, revealed, g) := createBoard (mainRng st) in
        Ok (Some (mkMain pos board revealed (selection game) log g))
      else
        Ok (Some (mkMain pos (mainBoard st) (revealedBoxes game) (selection game)
                         log (mainRng st)))
  end.

(** The loop over the frames played so far. *)
Fixpoint mainLoop (frames : list (list Event)) (st : Main) : Res (option Main) :=
  match frames with
  | [] => Ok (Some st)
  | events :: rest =>
      let* next := mainFrame events st in
      match next with
      | Some st' => mainLoop rest st'
      | None => Ok None
      end
  end.

Definition main (g : Rng) (frames : list (list Event)) : Res (option Main) :=
  let* (board, revealed, g) := createBoard g in
  mainLoop frames (mkMain (0, 0) board revealed [] [] g).

(** The module run as a script: it is loaded with its own constants, then
    [main] is called. *)
Definition script (g : Rng) (frames : list (list Event)) : Res (option Main) :=
  let* _ := moduleImport BOARDWIDTH BOARDHEIGHT ALLSHAPES ALLCOLORS in
  main g frames.

(** ** Vocabulary of the statements *)

(** A grid of [w] columns with [h] cells each, as [getRandomizedBoard] and
    [generateRevealedBoxesData] build them. *)
Definition isGrid {A} (w h : Z) (grid : list (list A)) : Prop :=
  len grid = w /\ Forall (fun col => len col = h) grid.

(** A box that names a cell of the grid, counting from zero. *)
Definition inBounds {A} (grid : list (list A)) (box : Box) : Prop :=
  exists col, 0 <= box.1 /\ grid !! Z.to_nat box.1 = Some col /\ 0 <= box.2 < len col.

(** The cell of a box inside the grid. *)
Definition cellAt {A} (grid : list (list A)) (box : Box) : option A :=
  col ← grid !! Z.to_nat box.1; col !! Z.to_nat box.2.

(** The grid with one cell replaced. *)
Definition withCell {A} (grid : list (list A)) (box : Box) (v : A) : list (list A) :=
  match grid !! Z.to_nat box.1 with
  | Some col => <[Z.to_nat box.1 := <[Z.to_nat box.2 := v]> col]> grid
  | None => grid
  end.

(** How often an icon occurs among the cells of a board. *)
Definition occurrences (icon : Icon) (board : list (list Icon)) : nat :=
  length (filter (fun c => c = icon) (concat board)).

(** The outcome of the last resolution, read off the log. *)
Inductive Outcome : Type := Match | Mismatch.

Definition lastOutcome (st : Game) : option Outcome :=
  match last (debugLog st) with
  | Some DebugMatch => Some Match
  | Some DebugMismatch => Some Mismatch
  | _ => None
  end.

(** The preconditions of board generation do not hold: an odd number of
    cells, or fewer catalog entries than pairs to place. *)
Definition configViolated (w h : nat) (shapes : list Shape) (colors : list Color) : Prop :=
  Nat.Odd (w * h) \/ (length (iconCatalog shapes colors) < w * h / 2)%nat.

(** What every frame of [main] keeps: a board and a reveal-state grid of the
    game's dimensions, and a selection of at most one box of the grid. *)
Definition mainInv (st : Main) : Prop :=
  isGrid BOARDWIDTH BOARDHEIGHT (mainBoard st) /\
  isGrid BOARDWIDTH BOARDHEIGHT (mainRevealed st) /\
  (length (mainSelection st) <= 1)%nat /\
  Forall (fun box => box ∈ allBoxes) (mainSelection st).

(** Whether the events hold a button release. *)
Definition hasClick (events : list Event) : bool :=
  existsb (fun event => match event with MOUSEBUTTONUP _ => true | _ => false end) events.

(** The pointer position of the last mouse event, if there is one. *)
Definition lastMousePos (events : list Event) (start : Z * Z) : Z * Z :=
  foldl (fun pos event =>
           match event with
           | MOUSEMOTION p | MOUSEBUTTONUP p => p
           | _ => pos
           end) start events.

(** ** A game to run the statements on *)

Definition demoEntropy : Rng :=
  [3; 1; 4; 1; 5; 9; 2; 6; 5; 3; 5; 8; 9; 7; 9; 3; 2; 3; 8; 4; 6; 2; 6; 4; 3;
   3; 8; 3; 2; 7; 9; 5; 0; 2; 8; 8; 4; 1; 9; 7; 1; 6; 9; 3; 9; 9; 3; 7; 5; 1;
   0; 5; 8; 2; 0; 9; 7; 4; 9; 4; 4; 5; 9; 2; 3; 0; 7; 8; 1; 6; 4; 0; 6; 2; 8;
   6; 2; 0; 8; 9; 9; 8; 6; 2; 8; 0; 3; 4; 8; 2; 5; 3; 4; 2; 1; 1; 7; 0; 6; 7;
   9]%nat.

(** The board and the reveal-state [createBoard] returns on these draws. *)
Definition demoBoard : list (list Icon) :=
  Eval vm_compute in
    match createBoard demoEntropy with
    | Ok (board, _, _) => board
    | Raise _ => []
    end.

Definition demoRevealed : list (list bool) :=
  Eval vm_compute in
    match createBoard demoEntropy with
    | Ok (_, revealed, _) => revealed
    | Raise _ => []
    end.

Definition demoStart : Game := mkGame demoRevealed [] [].

(** The same round with one pair left to find, the boxes (0, 0) and (5, 1). *)
Definition demoLastPair : Game :=
  mkGame (withCell (withCell (generateRevealedBoxesData true BOARDWIDTH BOARDHEIGHT)
                             (0, 0) false) (5, 1) false) [] [].

(** [main] right after [createBoard], and [main] one pick away from winning:
    (0, 0) is selected and its twin (5, 1) is the only hidden box. *)
Definition demoMain : Main := mkMain (0, 0) demoBoard demoRevealed [] [] [].

Definition demoMainLastPick : Main :=
  mkMain (0, 0) demoBoard
         (withCell (generateRevealedBoxesData true BOARDWIDTH BOARDHEIGHT) (5, 1) false)
         [(0, 0)] [] demoEntropy.

(** * Properties *)

(** ** Python lists: indexing, ranges, slices *)

Section PyLists.
Context {A : Type}.
Implicit Types (l : list A) (i : Z).

Lemma len_nonneg l : 0 <= len l.
Proof. unfold len. lia. Qed.

Lemma wrap_nonneg l i : 0 <= i -> wrap l i = i.
Proof. intros Hi. unfold wrap. destruct (Z.ltb_spec i 0); lia. Qed.

Lemma wrap_neg l i : i < 0 -> wrap l i = i + len l.
Proof. intros Hi. unfold wrap. destruct (Z.ltb_spec i 0); lia. Qed.

(** An index inside the list reads the cell it names. *)
Lemma getitem_inside l i :
  0 <= i < len l ->
  exists a, l !! Z.to_nat i = Some a /\ getitem l i = Ok a.
Proof.
  intros Hi. unfold getitem. rewrite wrap_nonneg by lia.
  destruct (Z.ltb_spec i 0); [lia|].
  destruct (lookup_lt_is_Some_2 l (Z.to_nat i)) as [a Ha].
  { unfold len in Hi. lia. }
  exists a. by rewrite Ha.
Qed.

Lemma getitem_lookup l i a :
  0 <= i -> l !! Z.to_nat i = Some a -> getitem l i = Ok a.
Proof.
  intros Hi Ha. unfold getitem. rewrite wrap_nonneg by lia.
  destruct (Z.ltb_spec i 0); [lia|]. by rewrite Ha.
Qed.

(** A negative index no smaller than [- len l] reads from the end. *)
Lemma getitem_from_end l i :
  - len l <= i < 0 ->
  exists a, l !! Z.to_nat (i + len l) = Some a /\ getitem l i = Ok a.
Proof.
  intros Hi. unfold getitem. rewrite wrap_neg by lia.
  destruct (Z.ltb_spec (i + len l) 0); [lia|].
  destruct (lookup_lt_is_Some_2 l (Z.to_nat (i + len l))) as [a Ha].
  { unfold len in *. lia. }
  exists a. by rewrite Ha.
Qed.

(** Everything else raises [IndexError]. *)
Lemma getitem_outside l i :
  i < - len l \/ len l <= i -> getitem l i = Raise IndexError.
Proof.
  intros Hi. unfold getitem, wrap.
  destruct (Z.ltb_spec i 0) as [Hneg|Hpos].
  - destruct (Z.ltb_spec (i + len l) 0); [done|]. pose proof (len_nonneg l). lia.
  - destruct (Z.ltb_spec i 0); [lia|].
    rewrite lookup_ge_None_2; [done|]. unfold len in Hi. lia.
Qed.

Lemma setitem_inside l i v :
  0 <= i < len l -> setitem l i v = Ok (<[Z.to_nat i := v]> l).
Proof.
  intros Hi. unfold setitem. rewrite wrap_nonneg by lia.
  destruct (Z.ltb_spec i 0); [lia|].
  destruct (Z.leb_spec (len l) i); [lia|]. done.
Qed.

Lemma slice_nonneg l start stop :
  0 <= start -> 0 <= stop ->
  slice l start stop = drop (Z.to_nat start) (take (Z.to_nat stop) l).
Proof. intros. unfold slice. by rewrite !wrap_nonneg. Qed.

Lemma mul_two l : mul l 2 = l ++ l.
Proof. unfold mul. simpl. by rewrite app_nil_r. Qed.

(** Consecutive pieces of [s] elements make up a prefix. *)
Lemma concat_pieces l (s m : nat) :
  concat ((fun k => take s (drop (k * s) l)) <$> seq 0 m) = take (m * s) l.
Proof.
  induction m as [|m IH].
  - done.
  - rewrite seq_S, fmap_app, concat_app, IH. simpl.
    rewrite app_nil_r, take_take_drop. f_equal. lia.
Qed.

End PyLists.

Lemma range_lookup (n : Z) (k : nat) (i : Z) :
  range n !! k = Some i <-> i = Z.of_nat k /\ (k < Z.to_nat n)%nat.
Proof.
  unfold range. rewrite list_lookup_fmap.
  destruct (decide (k < Z.to_nat n)%nat) as [Hk|Hk].
  - rewrite lookup_seq_lt by done. simpl. split.
    + intros [= <-]. done.
    + intros [-> _]. done.
  - rewrite lookup_seq_ge by lia. simpl. split; [done|]. intros [_ ?]. lia.
Qed.

Lemma elem_of_range (n i : Z) : i ∈ range n <-> 0 <= i < n.
Proof.
  rewrite list_elem_of_lookup. split.
  - intros [k Hk]. apply range_lookup in Hk as [-> Hk]. lia.
  - intros Hi. exists (Z.to_nat i). apply range_lookup. lia.
Qed.

Lemma length_range (n : Z) : length (range n) = Z.to_nat n.
Proof. unfold range. by rewrite length_fmap, length_seq. Qed.

(** ** splitIntoGroupsOf *)

Section Split.
Context {A : Type}.

(** With a positive size the groups are the consecutive pieces. *)
Lemma splitIntoGroupsOf_pieces (size : Z) (items : list A) :
  1 <= size ->
  splitIntoGroupsOf size items =
    Ok ((fun k => take (Z.to_nat size) (drop (k * Z.to_nat size) items))
          <$> seq 0 (range_len 0 (len items) size)).
Proof.
  intros Hs. unfold splitIntoGroupsOf, range3.
  destruct (Z.eqb_spec size 0); [lia|]. simpl.
  f_equal. rewrite <- list_fmap_compose. apply list_fmap_ext.
  intros _ k _. simpl. rewrite list_fmap_id.
  rewrite slice_nonneg by lia.
  rewrite take_drop_commute. f_equal; [lia|]. f_equal. lia.
Qed.

Lemma range_len_covers (size : Z) (n : nat) :
  1 <= size -> (n <= range_len 0 (Z.of_nat n) size * Z.to_nat size)%nat.
Proof.
  intros Hs. unfold range_len. destruct (Z.ltb_spec 0 size); [|lia].
  replace (Z.of_nat n - 0 + size - 1) with (Z.of_nat n + size - 1) by lia.
  pose proof (Z.div_mod (Z.of_nat n + size - 1) size ltac:(lia)) as Hdm.
  pose proof (Z.mod_pos_bound (Z.of_nat n + size - 1) size ltac:(lia)) as Hm.
  assert (0 <= (Z.of_nat n + size - 1) / size) by (apply Z.div_pos; lia).
  nia.
Qed.

Lemma range_len_tight (size : Z) (n k : nat) :
  1 <= size -> (k + 1 < range_len 0 (Z.of_nat n) size)%nat ->
  (k * Z.to_nat size + Z.to_nat size <= n)%nat.
Proof.
  intros Hs. unfold range_len. destruct (Z.ltb_spec 0 size); [|lia].
  replace (Z.of_nat n - 0 + size - 1) with (Z.of_nat n + size - 1) by lia.
  pose proof (Z.div_mod (Z.of_nat n + size - 1) size ltac:(lia)) as Hdm.
  pose proof (Z.mod_pos_bound (Z.of_nat n + size - 1) size ltac:(lia)) as Hm.
  intros Hk. nia.
Qed.

End Split.

(** C10: for every size >= 1, [splitIntoGroupsOf size items] returns groups
    whose concatenation, in order, is [items], and every group except
    possibly the last has exactly [size] elements. *)
Theorem splitIntoGroupsOf_concat {A} (size : Z) (items : list A) :
  1 <= size ->
  exists groups,
    splitIntoGroupsOf size items = Ok groups /\
    concat groups = items /\
    forall (k : nat) (group : list A),
      (k + 1 < length groups)%nat -> groups !! k = Some group -> len group = size.
Proof.
  intros Hs. eexists. split; [by apply splitIntoGroupsOf_pieces|]. split.
  - rewrite concat_pieces. apply take_ge.
    by apply range_len_covers.
  - intros k group. rewrite length_fmap, length_seq. intros Hk.
    rewrite list_lookup_fmap, lookup_seq_lt by lia. simpl. intros [= <-].
    unfold len. rewrite length_take, length_drop.
    pose proof (range_len_tight size (length items) k Hs Hk). lia.
Qed.

Lemma splitIntoGroupsOf_concat_witness :
  exists groups,
    splitIntoGroupsOf 3 [1; 2; 3; 4; 5; 6; 7] = Ok groups /\
    concat groups = [1; 2; 3; 4; 5; 6; 7] /\
    forall (k : nat) (group : list Z),
      (k + 1 < length groups)%nat -> groups !! k = Some group -> len group = 3.
Proof. apply (splitIntoGroupsOf_concat 3 [1; 2; 3; 4; 5; 6; 7]). lia. Defined.

(** ** hasWon *)

Lemma hasWon_true_Forall (revealed : list (list bool)) :
  hasWon revealed = true <-> Forall (fun col => false ∉ col) revealed.
Proof.
  induction revealed as [|col rest IH]; simpl.
  - split; [constructor|done].
  - rewrite Forall_cons. case_bool_decide as Hin.
    + split; [done|]. intros [Hcol _]. done.
    + rewrite IH. tauto.
Qed.

Lemma no_false_all_true (col : list bool) :
  false ∉ col <-> forall (j : nat) (v : bool), col !! j = Some v -> v = true.
Proof.
  split.
  - intros Hcol j [] Hj; [done|]. destruct Hcol.
    apply list_elem_of_lookup. eauto.
  - intros Hall [j Hj]%list_elem_of_lookup. by apply Hall in Hj.
Qed.

(** C4: [hasWon] returns true if and only if every cell of the reveal-state
    grid is true, and it returns false as soon as one cell is false. *)
Theorem hasWon_all_visible (revealed : list (list bool)) :
  (hasWon revealed = true <->
   forall (i j : nat) (col : list bool) (v : bool),
     revealed !! i = Some col -> col !! j = Some v -> v = true) /\
  ((exists (i j : nat) (col : list bool),
       revealed !! i = Some col /\ col !! j = Some false) ->
   hasWon revealed = false).
Proof.
  assert (hasWon revealed = true <->
          forall (i j : nat) (col : list bool) (v : bool),
            revealed !! i = Some col -> col !! j = Some v -> v = true) as Hiff.
  { rewrite hasWon_true_Forall, Forall_lookup. split.
    - intros Hall i j col v Hi Hj.
      apply (proj1 (no_false_all_true col) (Hall i col Hi) j v Hj).
    - intros Hall i col Hi. apply no_false_all_true.
      intros j v Hj. by apply (Hall i j col v). }
  split; [exact Hiff|].
  intros (i & j & col & Hi & Hj).
  apply not_true_is_false. intros Hw.
  by pose proof (proj1 Hiff Hw i j col false Hi Hj).
Qed.

(** ** Grids *)

Section Grids.
Context {A : Type}.
Implicit Types (grid : list (list A)) (box : Box).

Lemma isGrid_inBounds grid (w h : Z) box :
  isGrid w h grid -> 0 <= box.1 < w -> 0 <= box.2 < h -> inBounds grid box.
Proof.
  intros [Hw Hh] Hi Hj.
  destruct (lookup_lt_is_Some_2 grid (Z.to_nat box.1)) as [col Hcol].
  { unfold len in Hw. lia. }
  exists col. split; [lia|]. split; [done|].
  rewrite Forall_lookup in Hh. rewrite (Hh _ _ Hcol). done.
Qed.

Lemma inBounds_cellAt grid box :
  inBounds grid box -> exists v, cellAt grid box = Some v.
Proof.
  intros (col & Hi & Hcol & Hj). unfold cellAt. rewrite Hcol. simpl.
  apply lookup_lt_is_Some_2. unfold len in Hj. lia.
Qed.

Lemma inBounds_withCell grid box box' v :
  inBounds grid box' -> inBounds (withCell grid box v) box'.
Proof.
  intros (col & Hi & Hcol & Hj). unfold withCell.
  destruct (grid !! Z.to_nat box.1) as [c|] eqn:Hc; [|by exists col].
  destruct (decide (Z.to_nat box.1 = Z.to_nat box'.1)) as [Heq|Hne].
  - rewrite Heq in Hc. simplify_eq.
    exists (<[Z.to_nat box.2 := v]> col). split; [done|]. split.
    + rewrite Heq. apply list_lookup_insert_eq. by eapply lookup_lt_Some.
    + unfold len in *. by rewrite length_insert.
  - exists col. split; [done|]. split; [|done].
    by rewrite list_lookup_insert_ne.
Qed.

Lemma isGrid_withCell grid (w h : Z) box v :
  isGrid w h grid -> isGrid w h (withCell grid box v).
Proof.
  intros [Hw Hh]. unfold withCell.
  destruct (grid !! Z.to_nat box.1) as [c|] eqn:Hc; [|done].
  split.
  - unfold len in *. by rewrite length_insert.
  - apply Forall_insert; [done|].
    rewrite Forall_lookup in Hh. specialize (Hh _ _ Hc).
    unfold len in *. by rewrite length_insert.
Qed.

Lemma cellAt_withCell_eq grid box v :
  inBounds grid box -> cellAt (withCell grid box v) box = Some v.
Proof.
  intros (col & Hi & Hcol & Hj). unfold withCell, cellAt. rewrite Hcol.
  rewrite list_lookup_insert_eq by (by eapply lookup_lt_Some). simpl.
  apply list_lookup_insert_eq. unfold len in Hj. lia.
Qed.

Lemma cellAt_withCell_ne grid box box' v :
  0 <= box.1 -> 0 <= box.2 -> 0 <= box'.1 -> 0 <= box'.2 -> box <> box' ->
  cellAt (withCell grid box v) box' = cellAt grid box'.
Proof.
  intros Hi Hj Hi' Hj' Hne. unfold withCell, cellAt.
  destruct (grid !! Z.to_nat box.1) as [c|] eqn:Hc; [|done].
  destruct (decide (Z.to_nat box.1 = Z.to_nat box'.1)) as [Heq|Hne1].
  - rewrite <- Heq, Hc.
    rewrite list_lookup_insert_eq by (by eapply lookup_lt_Some). simpl.
    apply list_lookup_insert_ne. intros Heq2.
    apply Hne. destruct box, box'. simpl in *. f_equal; lia.
  - by rewrite list_lookup_insert_ne.
Qed.

End Grids.

Lemma getShapeAndColor_inBounds (board : list (list Icon)) (box : Box) :
  inBounds board box ->
  exists icon, cellAt board box = Some icon /\ getShapeAndColor board box = Ok icon.
Proof.
  intros (col & Hi & Hcol & Hj). unfold getShapeAndColor, cellAt.
  rewrite (getitem_lookup _ _ _ Hi Hcol), Hcol. simpl.
  destruct (getitem_inside col box.2 Hj) as (icon & Hicon & Hget).
  exists icon. by rewrite Hicon.
Qed.

Lemma iconVisible_inBounds (revealed : list (list bool)) (box : Box) :
  inBounds revealed box ->
  exists v, cellAt revealed box = Some v /\ iconVisible revealed box = Ok v.
Proof.
  intros (col & Hi & Hcol & Hj). unfold iconVisible, cellAt.
  rewrite (getitem_lookup _ _ _ Hi Hcol), Hcol. simpl.
  destruct (getitem_inside col box.2 Hj) as (v & Hv & Hget).
  exists v. by rewrite Hv.
Qed.

Lemma setIconVisible_inBounds (revealed : list (list bool)) (box : Box) (visible : bool) :
  inBounds revealed box ->
  setIconVisible revealed box visible = Ok (withCell revealed box visible).
Proof.
  intros (col & Hi & Hcol & Hj). unfold setIconVisible, withCell.
  rewrite (getitem_lookup _ _ _ Hi Hcol), Hcol. simpl.
  rewrite (setitem_inside col box.2 visible Hj). simpl.
  apply setitem_inside. split; [done|].
  apply lookup_lt_Some in Hcol. unfold len. lia.
Qed.

(** ** getBoxCell *)

Lemma elem_of_allBoxes (box : Box) :
  box ∈ allBoxes <-> 0 <= box.1 < BOARDWIDTH /\ 0 <= box.2 < BOARDHEIGHT.
Proof.
  unfold allBoxes. rewrite list_elem_of_In, in_flat_map. split.
  - intros (i & Hi & Hbox). apply list_elem_of_In in Hi, Hbox.
    apply list_elem_of_fmap in Hbox as (j & -> & Hj).
    apply elem_of_range in Hi, Hj. done.
  - intros [Hi Hj]. exists box.1. split.
    + apply list_elem_of_In, elem_of_range. done.
    + apply list_elem_of_In, list_elem_of_fmap. exists box.2.
      split; [by destruct box|]. by apply elem_of_range.
Qed.

Lemma getBoxCell_Some (pos : Z * Z) (box : Box) :
  getBoxCell pos = Some box ->
  box ∈ allBoxes /\ collidepoint (getBoxRect box) pos = true.
Proof.
  unfold getBoxCell. intros [Hin Hhit]%find_some.
  by apply list_elem_of_In in Hin.
Qed.

(** C9: a box returned by [getBoxCell] lies in
    [0, BOARDWIDTH) x [0, BOARDHEIGHT), so it is a safe index into a board and
    a reveal-state grid of these dimensions for [getShapeAndColor],
    [iconVisible] and [setIconVisible]. *)
Theorem getBoxCell_in_bounds (pos : Z * Z) (box : Box) :
  getBoxCell pos = Some box ->
  (0 <= box.1 < BOARDWIDTH /\ 0 <= box.2 < BOARDHEIGHT) /\
  forall (board : list (list Icon)) (revealed : list (list bool)) (visible : bool),
    isGrid BOARDWIDTH BOARDHEIGHT board ->
    isGrid BOARDWIDTH BOARDHEIGHT revealed ->
    (exists icon, getShapeAndColor board box = Ok icon) /\
    (exists v, iconVisible revealed box = Ok v) /\
    (exists revealed', setIconVisible revealed box visible = Ok revealed').
Proof.
  intros [Hin _]%getBoxCell_Some. apply elem_of_allBoxes in Hin as [Hi Hj].
  split; [done|]. intros board revealed visible Hb Hr.
  pose proof (isGrid_inBounds board _ _ box Hb Hi Hj) as Hbb.
  pose proof (isGrid_inBounds revealed _ _ box Hr Hi Hj) as Hrb.
  split; [|split].
  - destruct (getShapeAndColor_inBounds board box Hbb) as (icon & _ & ->). eauto.
  - destruct (iconVisible_inBounds revealed box Hrb) as (v & _ & ->). eauto.
  - rewrite (setIconVisible_inBounds revealed box visible Hrb). eauto.
Qed.

Lemma getBoxCell_in_bounds_witness :
  getBoxCell (120, 115) = Some (1, 1) /\
  (0 <= 1 < BOARDWIDTH /\ 0 <= 1 < BOARDHEIGHT) /\
  forall (board : list (list Icon)) (revealed : list (list bool)) (visible : bool),
    isGrid BOARDWIDTH BOARDHEIGHT board ->
    isGrid BOARDWIDTH BOARDHEIGHT revealed ->
    (exists icon, getShapeAndColor board (1, 1) = Ok icon) /\
    (exists v, iconVisible revealed (1, 1) = Ok v) /\
    (exists revealed', setIconVisible revealed (1, 1) visible = Ok revealed').
Proof.
  split; [reflexivity|].
  apply (getBoxCell_in_bounds (120, 115) (1, 1)). reflexivity.
Defined.

(** ** getShapeAndColor *)

Lemma mod_from_end (i n : Z) : - n <= i < 0 -> i mod n = i + n.
Proof.
  intros Hi. rewrite <- (Z_mod_plus_full i 1 n).
  rewrite Z.mul_1_l. apply Z.mod_small. lia.
Qed.

(** Python indexing accepts [- len l <= i < len l] and reads cell
    [i mod len l]. *)
Lemma getitem_wrapped {A} (l : list A) (i : Z) :
  - len l <= i < len l ->
  exists a, l !! Z.to_nat (i mod len l) = Some a /\ getitem l i = Ok a.
Proof.
  intros Hi. destruct (Z.lt_ge_cases i 0) as [Hneg|Hpos].
  - rewrite mod_from_end by lia. apply getitem_from_end. lia.
  - rewrite Z.mod_small by lia. apply getitem_inside. lia.
Qed.

Lemma getShapeAndColor_wrapped (board : list (list Icon)) (w h : Z) (box : Box) :
  isGrid w h board -> - w <= box.1 < w -> - h <= box.2 < h ->
  exists icon,
    cellAt board (box.1 mod w, box.2 mod h) = Some icon /\
    getShapeAndColor board box = Ok icon.
Proof.
  intros [Hw Hh] Hi Hj. rewrite <- Hw in Hi.
  destruct (getitem_wrapped board box.1 Hi) as (col & Hcol & Hget).
  rewrite Forall_lookup in Hh. pose proof (Hh _ _ Hcol) as Hlen.
  rewrite <- Hlen in Hj.
  destruct (getitem_wrapped col box.2 Hj) as (icon & Hicon & Hget2).
  exists icon. unfold cellAt, getShapeAndColor. simpl.
  rewrite <- Hw, Hcol, Hget. simpl. rewrite <- Hlen, Hicon. done.
Qed.

Lemma getShapeAndColor_outside (board : list (list Icon)) (w h : Z) (box : Box) :
  isGrid w h board ->
  box.1 < - w \/ w <= box.1 \/ box.2 < - h \/ h <= box.2 ->
  getShapeAndColor board box = Raise IndexError.
Proof.
  intros [Hw Hh] Hout. unfold getShapeAndColor.
  destruct (decide (- w <= box.1 < w)) as [Hi|Hi].
  - rewrite <- Hw in Hi.
    destruct (getitem_wrapped board box.1 Hi) as (col & Hcol & ->). simpl.
    rewrite Forall_lookup in Hh. pose proof (Hh _ _ Hcol) as Hlen.
    apply getitem_outside. lia.
  - rewrite getitem_outside; [done|]. lia.
Qed.

(** C7, as the code has it: on a board of [w] columns and [h] rows,
    [getShapeAndColor] returns the stored icon for every box inside
    [0, w) x [0, h); it raises [IndexError] when a coordinate is at least its
    dimension or below minus its dimension; and a negative coordinate no
    smaller than minus its dimension is counted from the end, so such a box
    reads the cell [(i mod w, j mod h)] instead of failing. *)
Theorem getShapeAndColor_index (board : list (list Icon)) (w h : Z) (box : Box) :
  isGrid w h board ->
  (0 <= box.1 < w -> 0 <= box.2 < h ->
   exists icon, cellAt board box = Some icon /\ getShapeAndColor board box = Ok icon) /\
  (box.1 < - w \/ w <= box.1 \/ box.2 < - h \/ h <= box.2 ->
   getShapeAndColor board box = Raise IndexError) /\
  (- w <= box.1 < w -> - h <= box.2 < h ->
   exists icon,
     cellAt board (box.1 mod w, box.2 mod h) = Some icon /\
     getShapeAndColor board box = Ok icon).
Proof.
  intros Hgrid. split; [|split].
  - intros Hi Hj. apply getShapeAndColor_inBounds.
    by apply (isGrid_inBounds board w h).
  - by apply getShapeAndColor_outside.
  - by apply getShapeAndColor_wrapped.
Qed.

(** C7 as stated fails: the box (-1, -2) lies outside [0, 2) x [0, 2), and
    the lookup returns the icon of cell (1, 0) instead of raising. *)
Lemma getShapeAndColor_negative_box :
  let board := [[(donut, red); (square, blue)]; [(square, blue); (donut, red)]] in
  isGrid 2 2 board /\ - 1 < 0 /\ - 2 < 0 /\
  getShapeAndColor board (- 1, - 2) = Ok (square, blue).
Proof.
  simpl. split; [|done].
  split; [done|]. repeat constructor.
Qed.

Lemma getShapeAndColor_index_witness :
  let board := [[(donut, red); (square, blue)]; [(square, blue); (donut, red)]] in
  (exists icon, cellAt board (1, 0) = Some icon /\ getShapeAndColor board (1, 0) = Ok icon) /\
  getShapeAndColor board (0, 2) = Raise IndexError /\
  (exists icon,
     cellAt board ((- 1) mod 2, (- 2) mod 2) = Some icon /\
     getShapeAndColor board (- 1, - 2) = Ok icon).
Proof.
  intros board.
  assert (isGrid 2 2 board) as Hgrid by (split; [done|repeat constructor]).
  split; [|split].
  - apply (getShapeAndColor_index board 2 2 (1, 0) Hgrid); simpl; lia.
  - apply (getShapeAndColor_index board 2 2 (0, 2) Hgrid); simpl; lia.
  - apply (getShapeAndColor_index board 2 2 (- 1, - 2) Hgrid); simpl; lia.
Defined.

(** ** The animations complete on boxes inside the board *)

Lemma for_each_unit_ok {B} (body : B -> unit -> Res unit) (xs : list B) :
  (forall x, x ∈ xs -> body x tt = Ok tt) -> for_each body xs tt = Ok tt.
Proof.
  induction xs as [|x xs IH]; intros Hbody; simpl; [done|].
  rewrite Hbody by apply list_elem_of_here. simpl.
  apply IH. intros y Hy. apply Hbody. by apply list_elem_of_further.
Qed.

Lemma drawIcon_ok (board : list (list Icon)) (box : Box) :
  inBounds board box -> drawIcon board box = Ok tt.
Proof.
  intros Hb. unfold drawIcon.
  by destruct (getShapeAndColor_inBounds board box Hb) as (icon & _ & ->).
Qed.

Lemma drawBoxCovers_ok (board : list (list Icon)) (boxes : list Box) (coverage : Z) :
  Forall (inBounds board) boxes -> drawBoxCovers board boxes coverage = Ok tt.
Proof.
  intros Hall. apply for_each_unit_ok. intros box Hbox.
  apply drawIcon_ok. rewrite Forall_forall in Hall. by apply Hall.
Qed.

Lemma range3_nonzero (start stop step : Z) :
  step <> 0 -> exists l, range3 start stop step = Ok l.
Proof.
  intros Hs. unfold range3. destruct (Z.eqb_spec step 0); [done|]. eauto.
Qed.

Lemma revealBoxesAnimation_ok (board : list (list Icon)) (group : list Box) :
  Forall (inBounds board) group -> revealBoxesAnimation board group = Ok tt.
Proof.
  intros Hall. unfold revealBoxesAnimation.
  destruct (range3_nonzero BOXSIZE (- REVEALSPEED - 1) (- REVEALSPEED))
    as [coverages ->]; [done|]. simpl.
  apply for_each_unit_ok. intros c _. by apply drawBoxCovers_ok.
Qed.

Lemma coverBoxesAnimation_ok (board : list (list Icon)) (group : list Box) :
  Forall (inBounds board) group -> coverBoxesAnimation board group = Ok tt.
Proof.
  intros Hall. unfold coverBoxesAnimation.
  destruct (range3_nonzero 0 (BOXSIZE + REVEALSPEED) REVEALSPEED)
    as [coverages ->]; [done|]. simpl.
  apply for_each_unit_ok. intros c _. by apply drawBoxCovers_ok.
Qed.

(** ** handleClick, one call at a time *)

Ltac bind_ok H :=
  match type of H with
  | Py.bind ?m _ = Ok _ =>
      let a := fresh "a" in
      let E := fresh "E" in
      destruct m as [a|] eqn:E; cbn [Py.bind] in H; [|discriminate H]
  end.

(** A click in the margin or in a gap changes nothing. *)
Lemma handleClick_miss (board : list (list Icon)) (pos : Z * Z) (st : Game) :
  getBoxCell pos = None -> handleClick board pos st = Ok st.
Proof. intros Hpos. unfold handleClick. by rewrite Hpos. Qed.

(** The first box of a selection is revealed and kept. *)
Lemma handleClick_first (board : list (list Icon)) (pos : Z * Z) (st : Game) (box : Box) :
  getBoxCell pos = Some box ->
  selection st = [] ->
  inBounds board box ->
  inBounds (revealedBoxes st) box ->
  handleClick board pos st =
    Ok (mkGame (withCell (revealedBoxes st) box true) [box]
               (debugLog st ++ [DebugSelection [box]])).
Proof.
  intros Hpos Hsel Hb Hr. unfold handleClick. rewrite Hpos, Hsel.
  rewrite bool_decide_eq_false_2 by apply not_elem_of_nil.
  rewrite (setIconVisible_inBounds _ _ _ Hr). cbn [Py.bind].
  rewrite revealBoxesAnimation_ok by (by repeat constructor).
  reflexivity.
Qed.

(** The second box resolves the pair: the icons are compared, a mismatch
    hides both boxes, and the selection is emptied either way. *)
Lemma handleClick_second (board : list (list Icon)) (pos : Z * Z) (st : Game) (a b : Box) :
  getBoxCell pos = Some b ->
  selection st = [a] ->
  a <> b ->
  inBounds board a -> inBounds board b ->
  inBounds (revealedBoxes st) a -> inBounds (revealedBoxes st) b ->
  exists iconA iconB,
    cellAt board a = Some iconA /\ cellAt board b = Some iconB /\
    handleClick board pos st =
      Ok (if bool_decide (iconA = iconB)
          then mkGame (withCell (revealedBoxes st) b true) []
                      ((debugLog st ++ [DebugSelection [a; b]]) ++ [DebugMatch])
          else mkGame (withCell (withCell (withCell (revealedBoxes st) b true) a false)
                                b false) []
                      ((debugLog st ++ [DebugSelection [a; b]]) ++ [DebugMismatch])).
Proof.
  intros Hpos Hsel Hne Hba Hbb Hra Hrb.
  destruct (getShapeAndColor_inBounds board a Hba) as (iconA & HcA & HgA).
  destruct (getShapeAndColor_inBounds board b Hbb) as (iconB & HcB & HgB).
  exists iconA, iconB. split; [done|]. split; [done|].
  unfold handleClick. rewrite Hpos, Hsel.
  rewrite bool_decide_eq_false_2 by (rewrite list_elem_of_singleton; congruence).
  rewrite (setIconVisible_inBounds _ _ _ Hrb). cbn [Py.bind].
  rewrite revealBoxesAnimation_ok by (by repeat constructor).
  cbn [Py.bind app]. change (1 <? len [a; b]) with true. cbv iota.
  change (getitem [a; b] 0) with (Ok a). change (getitem [a; b] 1) with (Ok b).
  cbn [Py.bind]. rewrite HgA, HgB. cbn [Py.bind].
  case_bool_decide; [done|].
  rewrite coverBoxesAnimation_ok by (by repeat constructor).
  cbn [Py.bind for_each].
  rewrite setIconVisible_inBounds by (by apply inBounds_withCell).
  cbn [Py.bind].
  rewrite setIconVisible_inBounds by (by do 2 apply inBounds_withCell).
  reflexivity.
Qed.

(** A box already in the selection is ignored. *)
Lemma handleClick_repeat (board : list (list Icon)) (pos : Z * Z) (st : Game) (box : Box) :
  getBoxCell pos = Some box -> box ∈ selection st -> handleClick board pos st = Ok st.
Proof.
  intros Hpos Hin. unfold handleClick. rewrite Hpos.
  by rewrite bool_decide_eq_true_2.
Qed.

(** What a completed call can do to the selection: leave it, empty it, or
    start it with one box. *)
Lemma handleClick_selection (board : list (list Icon)) (pos : Z * Z) (st st' : Game) :
  handleClick board pos st = Ok st' ->
  selection st' = selection st \/
  selection st' = [] \/
  (selection st = [] /\ exists box, selection st' = [box]).
Proof.
  unfold handleClick. intros H.
  destruct (getBoxCell pos) as [box|]; [|left; congruence].
  case_bool_decide; [left; congruence|].
  bind_ok H. bind_ok H.
  destruct (1 <? len (selection st ++ [box])) eqn:Hlen.
  - right. left. repeat bind_ok H.
    case_bool_decide.
    + by simplify_eq.
    + repeat bind_ok H. by simplify_eq.
  - right. right. simplify_eq. simpl.
    apply Z.ltb_ge in Hlen. unfold len in Hlen. rewrite length_app in Hlen.
    simpl in Hlen. destruct (selection st); [eauto|]. simpl in Hlen. lia.
Qed.

(** A new box added to a non-empty selection always ends with the selection
    emptied. *)
Lemma handleClick_clears (board : list (list Icon)) (pos : Z * Z) (st st' : Game) (box : Box) :
  getBoxCell pos = Some box -> box ∉ selection st -> selection st <> [] ->
  handleClick board pos st = Ok st' ->
  selection st' = [].
Proof.
  unfold handleClick. intros -> Hnew Hsel H.
  rewrite bool_decide_eq_false_2 in H by done.
  bind_ok H. bind_ok H.
  assert ((1 <? len (selection st ++ [box])) = true) as Hlen.
  { apply Z.ltb_lt. unfold len. rewrite length_app. simpl.
    destruct (selection st); [done|]. simpl. lia. }
  rewrite Hlen in H. repeat bind_ok H.
  case_bool_decide.
  - by simplify_eq.
  - repeat bind_ok H. by simplify_eq.
Qed.

(** ** handleClick over a sequence of clicks *)

Lemma inBounds_nonneg {A} (grid : list (list A)) (box : Box) :
  inBounds grid box -> 0 <= box.1 /\ 0 <= box.2.
Proof. intros (col & Hi & _ & Hj). lia. Qed.

(** Two clicks on different boxes, from an empty selection. *)
Lemma two_picks (board : list (list Icon)) (st : Game) (posA posB : Z * Z) (a b : Box) :
  getBoxCell posA = Some a -> getBoxCell posB = Some b -> a <> b ->
  selection st = [] ->
  inBounds board a -> inBounds board b ->
  inBounds (revealedBoxes st) a -> inBounds (revealedBoxes st) b ->
  exists iconA iconB st2,
    cellAt board a = Some iconA /\ cellAt board b = Some iconB /\
    handleClicks board [posA; posB] st = Ok st2 /\
    selection st2 = [] /\
    (iconA = iconB ->
     lastOutcome st2 = Some Match /\
     cellAt (revealedBoxes st2) a = Some true /\
     cellAt (revealedBoxes st2) b = Some true) /\
    (iconA <> iconB ->
     lastOutcome st2 = Some Mismatch /\
     cellAt (revealedBoxes st2) a = Some false /\
     cellAt (revealedBoxes st2) b = Some false).
Proof.
  intros HposA HposB Hne Hsel Hba Hbb Hra Hrb.
  destruct (inBounds_nonneg _ _ Hra) as [Ha1 Ha2].
  destruct (inBounds_nonneg _ _ Hrb) as [Hb1 Hb2].
  set (st1 := mkGame (withCell (revealedBoxes st) a true) [a]
                     (debugLog st ++ [DebugSelection [a]])).
  assert (inBounds (revealedBoxes st1) a) as Hra1 by (by apply inBounds_withCell).
  assert (inBounds (revealedBoxes st1) b) as Hrb1 by (by apply inBounds_withCell).
  destruct (handleClick_second board posB st1 a b HposB eq_refl Hne Hba Hbb Hra1 Hrb1)
    as (iconA & iconB & HcA & HcB & Hstep).
  exists iconA, iconB. eexists. split; [done|]. split; [done|]. split.
  { unfold handleClicks. cbn [for_each].
    rewrite (handleClick_first board posA st a HposA Hsel Hba Hra).
    cbn [Py.bind]. fold st1. rewrite Hstep. reflexivity. }
  case_bool_decide as Heq; (split; [done|]); split; try done; intros _.
  - unfold lastOutcome. cbn [debugLog revealedBoxes]. rewrite last_snoc.
    split; [done|]. split.
    + rewrite cellAt_withCell_ne by (try done; congruence).
      by apply cellAt_withCell_eq.
    + by apply cellAt_withCell_eq.
  - unfold lastOutcome. cbn [debugLog revealedBoxes]. rewrite last_snoc.
    split; [done|]. split.
    + rewrite cellAt_withCell_ne by (try done; congruence).
      apply cellAt_withCell_eq. by apply inBounds_withCell.
    + apply cellAt_withCell_eq. by do 2 apply inBounds_withCell.
Qed.

Lemma demoBoard_created : createBoard demoEntropy = Ok (demoBoard, demoRevealed, []).
Proof. vm_compute. reflexivity. Qed.

Lemma demoBoard_isGrid : isGrid BOARDWIDTH BOARDHEIGHT demoBoard.
Proof. split; [reflexivity|]. repeat constructor. Qed.

Lemma demoRevealed_isGrid : isGrid BOARDWIDTH BOARDHEIGHT demoRevealed.
Proof. split; [reflexivity|]. repeat constructor. Qed.

Lemma demo_inBounds {A} (grid : list (list A)) (i j : Z) :
  isGrid BOARDWIDTH BOARDHEIGHT grid ->
  (0 <=? i) && (i <? BOARDWIDTH) && (0 <=? j) && (j <? BOARDHEIGHT) = true ->
  inBounds grid (i, j).
Proof.
  intros Hgrid Hij. apply (isGrid_inBounds grid BOARDWIDTH BOARDHEIGHT); [done|..];
    simpl; lia.
Qed.

(** C2: from an empty selection, picking a box [a] and then a different box
    [b], both inside the board, ends in the Match outcome exactly when the
    icon of [a] equals the icon of [b] (shape and colour), and in the
    Mismatch outcome exactly when they differ, wherever the boxes are. *)
Theorem pick_two_match_iff (board : list (list Icon)) (st : Game)
        (posA posB : Z * Z) (a b : Box) :
  getBoxCell posA = Some a -> getBoxCell posB = Some b -> a <> b ->
  selection st = [] ->
  inBounds board a -> inBounds board b ->
  inBounds (revealedBoxes st) a -> inBounds (revealedBoxes st) b ->
  exists iconA iconB st2,
    getShapeAndColor board a = Ok iconA /\
    getShapeAndColor board b = Ok iconB /\
    handleClicks board [posA; posB] st = Ok st2 /\
    (lastOutcome st2 = Some Match <-> iconA = iconB) /\
    (lastOutcome st2 = Some Mismatch <-> iconA <> iconB).
Proof.
  intros HposA HposB Hne Hsel Hba Hbb Hra Hrb.
  destruct (two_picks board st posA posB a b HposA HposB Hne Hsel Hba Hbb Hra Hrb)
    as (iconA & iconB & st2 & HcA & HcB & Hrun & _ & Hsame & Hdiff).
  exists iconA, iconB, st2.
  destruct (getShapeAndColor_inBounds board a Hba) as (iconA' & HcA' & ->).
  destruct (getShapeAndColor_inBounds board b Hbb) as (iconB' & HcB' & ->).
  simplify_eq. do 3 (split; [done|]).
  destruct (decide (iconA = iconB)) as [Heq|Hneq].
  - destruct (Hsame Heq) as (Hout & _). rewrite Hout. split; split; congruence.
  - destruct (Hdiff Hneq) as (Hout & _). rewrite Hout. split; split; congruence.
Qed.

Lemma pick_two_match_iff_witness :
  exists iconA iconB st2,
    getShapeAndColor demoBoard (0, 0) = Ok iconA /\
    getShapeAndColor demoBoard (5, 1) = Ok iconB /\
    handleClicks demoBoard [(90, 85); (340, 135)] demoStart = Ok st2 /\
    (lastOutcome st2 = Some Match <-> iconA = iconB) /\
    (lastOutcome st2 = Some Mismatch <-> iconA <> iconB).
Proof.
  apply (pick_two_match_iff demoBoard demoStart (90, 85) (340, 135) (0, 0) (5, 1)).
  - reflexivity.
  - reflexivity.
  - discriminate.
  - reflexivity.
  - apply demo_inBounds; [apply demoBoard_isGrid|reflexivity].
  - apply demo_inBounds; [apply demoBoard_isGrid|reflexivity].
  - apply demo_inBounds; [apply demoRevealed_isGrid|reflexivity].
  - apply demo_inBounds; [apply demoRevealed_isGrid|reflexivity].
Defined.

(** The part of C3 that holds: right after the second pick both boxes are
    hidden on a mismatch and both are shown on a match. *)
Lemma two_picks_visibility (board : list (list Icon)) (st : Game)
      (posA posB : Z * Z) (a b : Box) :
  getBoxCell posA = Some a -> getBoxCell posB = Some b -> a <> b ->
  selection st = [] ->
  inBounds board a -> inBounds board b ->
  inBounds (revealedBoxes st) a -> inBounds (revealedBoxes st) b ->
  exists st2 va vb,
    handleClicks board [posA; posB] st = Ok st2 /\
    iconVisible (revealedBoxes st2) a = Ok va /\
    iconVisible (revealedBoxes st2) b = Ok vb /\
    (lastOutcome st2 = Some Match -> va = true /\ vb = true) /\
    (lastOutcome st2 = Some Mismatch -> va = false /\ vb = false).
Proof.
  intros HposA HposB Hne Hsel Hba Hbb Hra Hrb.
  destruct (two_picks board st posA posB a b HposA HposB Hne Hsel Hba Hbb Hra Hrb)
    as (iconA & iconB & st2 & HcA & HcB & Hrun & _ & Hsame & Hdiff).
  assert (forall box v, 0 <= box.1 -> 0 <= box.2 ->
            cellAt (revealedBoxes st2) box = Some v ->
            iconVisible (revealedBoxes st2) box = Ok v) as Hvis.
  { intros box v H1 H2. unfold cellAt, iconVisible.
    destruct (revealedBoxes st2 !! Z.to_nat box.1) as [col|] eqn:Hcol; [|done].
    simpl. intros Hv. rewrite (getitem_lookup _ _ _ H1 Hcol). simpl.
    by apply getitem_lookup. }
  destruct (inBounds_nonneg _ _ Hra) as [Ha1 Ha2].
  destruct (inBounds_nonneg _ _ Hrb) as [Hb1 Hb2].
  destruct (decide (iconA = iconB)) as [Heq|Hneq].
  - destruct (Hsame Heq) as (Hout & Hva & Hvb).
    exists st2, true, true. rewrite Hout.
    repeat split; auto; discriminate.
  - destruct (Hdiff Hneq) as (Hout & Hva & Hvb).
    exists st2, false, false. rewrite Hout.
    repeat split; auto; discriminate.
Qed.

(** C3 at a game the program can reach: on the board [createBoard] returns
    for [demoEntropy], the boxes (0, 0) and (5, 1) hold the same icon; picking
    them is a Match and both are shown.  Clicking (0, 0) again and then the
    box (0, 1), which holds another icon, is a Mismatch that hides (0, 0): a
    matched box does not stay visible. *)
Theorem matched_box_hidden_again :
  createBoard demoEntropy = Ok (demoBoard, demoRevealed, []) /\
  exists st2 st4,
    handleClicks demoBoard [(90, 85); (340, 135)] demoStart = Ok st2 /\
    lastOutcome st2 = Some Match /\
    iconVisible (revealedBoxes st2) (0, 0) = Ok true /\
    iconVisible (revealedBoxes st2) (5, 1) = Ok true /\
    handleClicks demoBoard [(90, 85); (90, 135)] st2 = Ok st4 /\
    lastOutcome st4 = Some Mismatch /\
    iconVisible (revealedBoxes st4) (0, 0) = Ok false.
Proof.
  split; [apply demoBoard_created|].
  eexists. eexists.
  split; [vm_compute; reflexivity|].
  split; [reflexivity|].
  split; [reflexivity|].
  split; [reflexivity|].
  split; [vm_compute; reflexivity|].
  split; reflexivity.
Qed.

(** C6: a click on a box that is already in the selection returns the
    state it was given: the same selection, the same reveal-state grid. *)
Theorem handleClick_same_box_noop (board : list (list Icon)) (pos : Z * Z)
        (st : Game) (box : Box) :
  getBoxCell pos = Some box ->
  box ∈ selection st ->
  exists st',
    handleClick board pos st = Ok st' /\
    selection st' = selection st /\
    length (selection st') = length (selection st) /\
    revealedBoxes st' = revealedBoxes st.
Proof.
  intros Hpos Hin. exists st. by rewrite (handleClick_repeat board pos st box).
Qed.

Lemma handleClick_same_box_noop_witness :
  let st := mkGame (withCell demoRevealed (0, 0) true) [(0, 0)]
                   [DebugSelection [(0, 0)]] in
  handleClick demoBoard (90, 85) demoStart = Ok st /\
  exists st',
    handleClick demoBoard (95, 80) st = Ok st' /\
    selection st' = selection st /\
    length (selection st') = length (selection st) /\
    revealedBoxes st' = revealedBoxes st.
Proof.
  intros st. split; [vm_compute; reflexivity|].
  apply (handleClick_same_box_noop demoBoard (95, 80) st (0, 0)).
  - reflexivity.
  - apply list_elem_of_here.
Defined.

(** ** The selection invariant *)

Lemma handleClick_keeps_small (board : list (list Icon)) (pos : Z * Z) (st st' : Game) :
  (length (selection st) <= 1)%nat ->
  handleClick board pos st = Ok st' ->
  (length (selection st') <= 1)%nat.
Proof.
  intros Hsmall Hstep.
  destruct (handleClick_selection board pos st st' Hstep)
    as [-> | [-> | (_ & box & ->)]]; simpl; lia.
Qed.

Lemma handleClicks_keep_small (board : list (list Icon)) (clicks : list (Z * Z))
      (st st' : Game) :
  (length (selection st) <= 1)%nat ->
  handleClicks board clicks st = Ok st' ->
  (length (selection st') <= 1)%nat.
Proof.
  unfold handleClicks. revert st.
  induction clicks as [|pos clicks IH]; intros st Hsmall Hrun; simpl in Hrun.
  - by simplify_eq.
  - bind_ok Hrun. apply (IH a); [|done].
    by apply (handleClick_keeps_small board pos st a).
Qed.

(** On a board and a reveal-state grid of the game's dimensions no call
    raises: every click is handled to completion. *)
Lemma handleClick_total (board : list (list Icon)) (pos : Z * Z) (st : Game) :
  isGrid BOARDWIDTH BOARDHEIGHT board ->
  isGrid BOARDWIDTH BOARDHEIGHT (revealedBoxes st) ->
  (length (selection st) <= 1)%nat ->
  Forall (fun box => box ∈ allBoxes) (selection st) ->
  exists st',
    handleClick board pos st = Ok st' /\
    isGrid BOARDWIDTH BOARDHEIGHT (revealedBoxes st') /\
    (length (selection st') <= 1)%nat /\
    Forall (fun box => box ∈ allBoxes) (selection st').
Proof.
  intros Hb Hr Hsmall Hsel.
  assert (forall (A : Type) (grid : list (list A)) box,
            isGrid BOARDWIDTH BOARDHEIGHT grid -> box ∈ allBoxes -> inBounds grid box)
    as Hin.
  { intros A grid box Hgrid [Hi Hj]%elem_of_allBoxes.
    by apply (isGrid_inBounds grid BOARDWIDTH BOARDHEIGHT). }
  destruct (getBoxCell pos) as [box|] eqn:Hpos.
  2: { exists st. by rewrite handleClick_miss. }
  destruct (decide (box ∈ selection st)) as [Hold|Hnew].
  { exists st. by rewrite (handleClick_repeat board pos st box). }
  destruct (getBoxCell_Some pos box Hpos) as [Hbox _].
  destruct (selection st) as [|a [|a' rest]] eqn:Hs; [| |simpl in Hsmall; lia].
  - pose proof (Hin _ board box Hb Hbox) as Hbb.
    pose proof (Hin _ (revealedBoxes st) box Hr Hbox) as Hrb.
    eexists. split; [by apply (handleClick_first board pos st box)|]. simpl.
    split; [by apply isGrid_withCell|]. split; [lia|]. by apply Forall_singleton.
  - apply Forall_inv in Hsel.
    assert (a <> box) as Hne by (intros ->; apply Hnew, list_elem_of_here).
    destruct (handleClick_second board pos st a box Hpos Hs Hne
                (Hin _ board a Hb Hsel) (Hin _ board box Hb Hbox)
                (Hin _ (revealedBoxes st) a Hr Hsel)
                (Hin _ (revealedBoxes st) box Hr Hbox))
      as (iconA & iconB & _ & _ & ->).
    eexists. split; [done|].
    case_bool_decide; simpl; (split; [by repeat apply isGrid_withCell|]);
      (split; [lia|constructor]).
Qed.

Lemma handleClicks_total (board : list (list Icon)) (clicks : list (Z * Z)) (st : Game) :
  isGrid BOARDWIDTH BOARDHEIGHT board ->
  isGrid BOARDWIDTH BOARDHEIGHT (revealedBoxes st) ->
  (length (selection st) <= 1)%nat ->
  Forall (fun box => box ∈ allBoxes) (selection st) ->
  exists st', handleClicks board clicks st = Ok st'.
Proof.
  intros Hb. unfold handleClicks. revert st.
  induction clicks as [|pos clicks IH]; intros st Hr Hsmall Hsel; simpl.
  - eauto.
  - destruct (handleClick_total board pos st Hb Hr Hsmall Hsel)
      as (st1 & -> & Hr1 & Hsmall1 & Hsel1).
    simpl. by apply IH.
Qed.

(** C8: starting from an empty selection, after every completed call of
    [handleClick] the selection holds at most one box; and a call in which
    the selection reaches two boxes returns with the selection emptied,
    whether the icons match or not. *)
Theorem selection_at_most_one (board : list (list Icon)) (clicks : list (Z * Z))
        (st st' : Game) :
  selection st = [] ->
  handleClicks board clicks st = Ok st' ->
  (length (selection st') <= 1)%nat /\
  forall (pos : Z * Z) (box : Box) (st'' : Game),
    getBoxCell pos = Some box ->
    box ∉ selection st' ->
    length (selection st' ++ [box]) = 2%nat ->
    handleClick board pos st' = Ok st'' ->
    selection st'' = [].
Proof.
  intros Hsel Hrun. split.
  - apply (handleClicks_keep_small board clicks st st'); [|done].
    rewrite Hsel. simpl. lia.
  - intros pos box st'' Hpos Hnew Hlen Hstep.
    apply (handleClick_clears board pos st' st'' box); try done.
    intros Hnil. rewrite Hnil in Hlen. simpl in Hlen. lia.
Qed.

Lemma selection_at_most_one_witness :
  exists st',
    handleClicks demoBoard [(90, 85); (340, 135); (90, 135)] demoStart = Ok st' /\
    (length (selection st') <= 1)%nat /\
    forall (pos : Z * Z) (box : Box) (st'' : Game),
      getBoxCell pos = Some box ->
      box ∉ selection st' ->
      length (selection st' ++ [box]) = 2%nat ->
      handleClick demoBoard pos st' = Ok st'' ->
      selection st'' = [].
Proof.
  eexists. split; [vm_compute; reflexivity|].
  eapply (selection_at_most_one demoBoard [(90, 85); (340, 135); (90, 135)] demoStart).
  - reflexivity.
  - vm_compute. reflexivity.
Defined.

(** ** random.shuffle rearranges, whatever the draws *)

Section Shuffle.
Context {A : Type}.
Implicit Types (x : list A) (g : Rng).

Lemma swap_Permutation x (i j : nat) : swap x i j ≡ₚ x.
Proof.
  unfold swap.
  destruct (x !! i) as [xi|] eqn:Hi; [|done].
  destruct (x !! j) as [xj|] eqn:Hj; [|done].
  by apply Permutation_insert_swap.
Qed.

Lemma shuffle_from_Permutation (i : nat) x g : (shuffle_from i x g).1 ≡ₚ x.
Proof.
  revert x g. induction i as [|i IH]; intros x g; simpl; [done|].
  destruct (randbelow (S (S i)) g) as [j g'].
  rewrite IH. apply swap_Permutation.
Qed.

Lemma shuffle_Permutation x g : (shuffle x g).1 ≡ₚ x.
Proof. apply shuffle_from_Permutation. Qed.

End Shuffle.

(** ** Filling the board by popping *)

Section Fill.
Context {A B C : Type}.
Implicit Types (l : list A) (xs : list B) (ys : list C).

Lemma pop_snoc l :
  pop l = match reverse l with
          | [] => Raise IndexError
          | a :: r => Ok (a, reverse r)
          end.
Proof. reflexivity. Qed.

(** One column: as many pops as [ys] has elements. *)
Lemma pop_column ys l :
  (length ys <= length l)%nat ->
  comprehension (fun (_ : C) icons => pop icons) ys l =
    Ok (take (length ys) (reverse l), reverse (drop (length ys) (reverse l))).
Proof.
  revert l. induction ys as [|y ys IH]; intros l Hlen; simpl.
  - by rewrite drop_0, reverse_involutive.
  - rewrite pop_snoc. destruct (reverse l) as [|a r] eqn:Hr.
    + apply (f_equal length) in Hr. rewrite length_reverse in Hr.
      simpl in *. lia.
    + assert (length l = S (length r)) as Hl.
      { rewrite <- (length_reverse l), Hr. done. }
      rewrite IH by (rewrite length_reverse; simpl in Hlen; lia).
      by rewrite reverse_involutive.
Qed.

Lemma pop_column_short ys l :
  (length l < length ys)%nat ->
  comprehension (fun (_ : C) icons => pop icons) ys l = Raise IndexError.
Proof.
  revert l. induction ys as [|y ys IH]; intros l Hlen; simpl in *; [lia|].
  rewrite pop_snoc. destruct (reverse l) as [|a r] eqn:Hr; [done|].
  assert (length l = S (length r)) as Hl.
  { rewrite <- (length_reverse l), Hr. done. }
  rewrite IH; [done|]. rewrite length_reverse. lia.
Qed.

(** All columns: the board read column by column is the icon list read
    from its end. *)
Lemma fill_board xs ys l :
  (length xs * length ys <= length l)%nat ->
  exists board,
    comprehension (fun (_ : B) => comprehension (fun (_ : C) icons => pop icons) ys) xs l
      = Ok (board, reverse (drop (length xs * length ys) (reverse l))) /\
    concat board = take (length xs * length ys) (reverse l) /\
    length board = length xs /\
    Forall (fun col => length col = length ys) board.
Proof.
  revert l. induction xs as [|x xs IH]; intros l Hlen; simpl in *.
  - exists []. by rewrite drop_0, reverse_involutive.
  - rewrite pop_column by lia.
    destruct (IH (reverse (drop (length ys) (reverse l)))) as (board & -> & Hc & Hn & Hall).
    { rewrite length_reverse, length_drop, length_reverse. lia. }
    exists (take (length ys) (reverse l) :: board).
    rewrite reverse_involutive, drop_drop in *. split; [done|]. split.
    + simpl. by rewrite Hc, take_take_drop.
    + split; [simpl; lia|]. constructor; [|done].
      rewrite length_take, length_reverse. lia.
Qed.

Lemma fill_board_short xs ys l :
  (length l < length xs * length ys)%nat ->
  comprehension (fun (_ : B) => comprehension (fun (_ : C) icons => pop icons) ys) xs l
    = Raise IndexError.
Proof.
  revert l. induction xs as [|x xs IH]; intros l Hlen; simpl in *; [lia|].
  destruct (decide (length ys <= length l)%nat) as [Hok|Hshort].
  - rewrite pop_column by done. rewrite IH; [done|].
    rewrite length_reverse, length_drop, length_reverse. lia.
  - by rewrite pop_column_short by lia.
Qed.

End Fill.

(** ** getRandomizedBoard *)

Lemma half_bounds (n : nat) : (2 * (n / 2) <= n < 2 * (n / 2) + 2)%nat.
Proof.
  pose proof (Nat.div_mod_eq n 2) as Hdm.
  pose proof (Nat.mod_upper_bound n 2 ltac:(lia)) as Hm.
  lia.
Qed.

(** *** int(a / 2) below 2^53 is the truncated quotient *)

Lemma round_half_even_multiple (q d : Z) : 0 < d -> round_half_even (q * d) d = q.
Proof.
  intros Hd. unfold round_half_even.
  rewrite Z.div_mul, Z.mod_mul by lia.
  destruct (Z.ltb_spec (2 * 0) d); [done|lia].
Qed.

Lemma ratio_to_float_half (n : Z) :
  0 < n < 2 ^ 53 ->
  ratio_to_float n 2 = Some (n * 2 ^ (52 - Z.log2 n), Z.log2 n - 53).
Proof.
  intros [Hpos Hlt]. unfold ratio_to_float.
  destruct (Z.eqb_spec n 0); [lia|].
  change (Z.log2 2) with 1.
  pose proof (Z.log2_nonneg n) as HL0.
  assert (Z.log2 n < 53) as HL by (by apply Z.log2_lt_pow2).
  destruct (Z.log2_spec n Hpos) as [Hlow _].
  set (L := Z.log2 n) in *.
  assert ((if 0 <=? L - 1 then n <? 2 * 2 ^ (L - 1) else n * 2 ^ (- (L - 1)) <? 2)
          = false) as ->.
  { destruct (Z.leb_spec 0 (L - 1)).
    - apply Z.ltb_ge. rewrite <- Z.pow_succ_r by done.
      by replace (Z.succ (L - 1)) with L by lia.
    - replace (- (L - 1)) with 1 by lia. apply Z.ltb_ge. lia. }
  replace (Z.max (L - 1 - 52) (- 1074)) with (L - 53) by lia.
  destruct (Z.leb_spec 0 (L - 53)); [lia|].
  replace (- (L - 53)) with (Z.succ (52 - L)) by lia.
  rewrite Z.pow_succ_r by lia.
  replace (n * (2 * 2 ^ (52 - L))) with (n * 2 ^ (52 - L) * 2) by lia.
  by rewrite round_half_even_multiple.
Qed.

Lemma int_truediv_half_nonneg (a : Z) :
  0 <= a < 2 ^ 53 -> int_truediv a 2 = Ok (a / 2).
Proof.
  intros [Ha Hlt]. unfold int_truediv. change (2 =? 0) with false. cbv iota.
  change (Z.abs 2) with 2. change (Z.sgn 2) with 1.
  destruct (Z.eq_dec a 0) as [->|Hne]; [reflexivity|].
  rewrite Z.abs_eq by done. rewrite ratio_to_float_half by lia.
  pose proof (Z.log2_nonneg a) as HL0.
  assert (Z.log2 a < 53) as HL by (apply Z.log2_lt_pow2; lia).
  destruct (Z.leb_spec 0 (Z.log2 a - 53)); [lia|].
  rewrite Z.sgn_pos by lia. f_equal.
  replace (- (Z.log2 a - 53)) with (Z.succ (52 - Z.log2 a)) by lia.
  rewrite Z.pow_succ_r by lia.
  assert (0 < 2 ^ (52 - Z.log2 a)) as Hp by (apply Z.pow_pos_nonneg; lia).
  rewrite !Z.mul_1_l. apply Z.div_mul_cancel_r; lia.
Qed.

(** Either sign: the fraction is dropped toward zero. *)
Lemma int_truediv_half (a : Z) :
  Z.abs a < 2 ^ 53 -> int_truediv a 2 = Ok (Z.quot a 2).
Proof.
  intros Ha. destruct (Z.le_gt_cases 0 a) as [Hpos|Hneg].
  - rewrite int_truediv_half_nonneg by lia. by rewrite Z.quot_div_nonneg by lia.
  - pose proof (int_truediv_half_nonneg (- a) ltac:(lia)) as Hopp.
    unfold int_truediv in *. change (2 =? 0) with false in *. cbv iota in *.
    rewrite Z.abs_opp in Hopp.
    destruct (ratio_to_float (Z.abs a) (Z.abs 2)) as [[m u]|]; [|done].
    rewrite Z.sgn_opp in Hopp. rewrite (Z.sgn_neg a) in * by lia.
    change (Z.sgn 2) with 1 in *. f_equal.
    injection Hopp as Hopp.
    assert (Z.quot a 2 = - ((- a) / 2)) as ->.
    { rewrite <- (Z.quot_div_nonneg (- a) 2), Z.quot_opp_l by lia. lia. }
    lia.
Qed.

Lemma numIcons_nat (w h : nat) :
  Z.of_nat w * Z.of_nat h < 2 ^ 53 ->
  int_truediv (Z.of_nat w * Z.of_nat h) 2 = Ok (Z.of_nat (w * h / 2)).
Proof.
  intros Hlt. rewrite int_truediv_half_nonneg by lia.
  rewrite <- Nat2Z.inj_mul. change 2 with (Z.of_nat 2) at 1.
  by rewrite <- Nat2Z.inj_div.
Qed.

Lemma length_iconCatalog (shapes : list Shape) (colors : list Color) :
  length (iconCatalog shapes colors) = (length shapes * length colors)%nat.
Proof.
  unfold iconCatalog. induction shapes as [|s shapes IH]; simpl; [done|].
  by rewrite length_app, length_fmap, IH.
Qed.

(** The run of [getRandomizedBoard] up to the filling of the grid: two
    rearrangements, and between them the first [w * h / 2] icons taken twice. *)
Lemma getRandomizedBoard_run (shapes : list Shape) (colors : list Color)
      (w h : nat) (g : Rng) :
  Z.of_nat w * Z.of_nat h < 2 ^ 53 ->
  exists (allIcons icons : list Icon) (g' : Rng),
    allIcons ≡ₚ iconCatalog shapes colors /\
    icons ≡ₚ take (w * h / 2) allIcons ++ take (w * h / 2) allIcons /\
    getRandomizedBoard shapes colors (Z.of_nat w) (Z.of_nat h) g =
      let* (board, _) :=
        comprehension
          (fun x => comprehension (fun y icons => pop icons) (range (Z.of_nat h)))
          (range (Z.of_nat w)) icons in
      Ok (board, g').
Proof.
  intros Hsmall. unfold getRandomizedBoard.
  pose proof (shuffle_Permutation (iconCatalog shapes colors) g) as Hp1.
  destruct (shuffle (iconCatalog shapes colors) g) as [allIcons g1].
  rewrite (numIcons_nat w h Hsmall). cbn [Py.bind].
  set (numIcons := Z.of_nat (w * h / 2)).
  pose proof (shuffle_Permutation (mul (slice allIcons 0 numIcons) 2) g1) as Hp2.
  destruct (shuffle (mul (slice allIcons 0 numIcons) 2) g1) as [icons g2].
  exists allIcons, icons, g2. split; [done|]. split; [|done].
  simpl in Hp2. rewrite Hp2, mul_two, slice_nonneg by (unfold numIcons; lia).
  change (Z.to_nat 0) with 0%nat. unfold numIcons. by rewrite drop_0, Nat2Z.id.
Qed.

Lemma getRandomizedBoard_ok (shapes : list Shape) (colors : list Color)
      (w h : nat) (g : Rng) :
  Z.of_nat w * Z.of_nat h < 2 ^ 53 ->
  ~ configViolated w h shapes colors ->
  exists (board : list (list Icon)) (g' : Rng) (allIcons : list Icon),
    getRandomizedBoard shapes colors (Z.of_nat w) (Z.of_nat h) g = Ok (board, g') /\
    isGrid (Z.of_nat w) (Z.of_nat h) board /\
    allIcons ≡ₚ iconCatalog shapes colors /\
    concat board ≡ₚ take (w * h / 2) allIcons ++ take (w * h / 2) allIcons /\
    length (concat board) = (w * h)%nat.
Proof.
  unfold configViolated. intros Hsmall Hcfg.
  destruct (Nat.Even_or_Odd (w * h)) as [[m Hm]|Hodd]; [|tauto].
  assert (w * h / 2 <= length (iconCatalog shapes colors))%nat as Hcat by lia.
  pose proof (half_bounds (w * h)) as Hhalf.
  destruct (getRandomizedBoard_run shapes colors w h g Hsmall)
    as (allIcons & icons & g' & Hp1 & Hp2 & ->).
  assert (length icons = (w * h)%nat) as Hlen.
  { rewrite Hp2, length_app, length_take, Hp1.
    pose proof (half_bounds (w * h)). lia. }
  destruct (fill_board (range (Z.of_nat w)) (range (Z.of_nat h)) icons)
    as (board & -> & Hc & Hn & Hall).
  { rewrite !length_range. lia. }
  rewrite !length_range, !Nat2Z.id in *.
  rewrite take_ge in Hc by (rewrite length_reverse; lia).
  exists board, g', allIcons. split; [done|]. split.
  { split; [unfold len; lia|].
    eapply Forall_impl; [exact Hall|]. intros col Hcol. unfold len. simpl in Hcol. lia. }
  split; [done|]. split.
  - by rewrite Hc, reverse_Permutation.
  - by rewrite Hc, length_reverse.
Qed.

Lemma getRandomizedBoard_short (shapes : list Shape) (colors : list Color)
      (w h : nat) (g : Rng) :
  Z.of_nat w * Z.of_nat h < 2 ^ 53 ->
  configViolated w h shapes colors ->
  getRandomizedBoard shapes colors (Z.of_nat w) (Z.of_nat h) g = Raise IndexError.
Proof.
  unfold configViolated. intros Hsmall Hcfg.
  destruct (getRandomizedBoard_run shapes colors w h g Hsmall)
    as (allIcons & icons & g' & Hp1 & Hp2 & ->).
  rewrite fill_board_short; [done|].
  rewrite !length_range, !Nat2Z.id, Hp2, length_app, length_take, Hp1.
  pose proof (half_bounds (w * h)) as Hhalf.
  destruct Hcfg as [[m Hm]|Hcat]; lia.
Qed.

Lemma icon_in_full_catalog (icon : Icon) : icon ∈ iconCatalog ALLSHAPES ALLCOLORS.
Proof.
  destruct icon as [[] []]; apply (bool_decide_unpack _); vm_compute; exact I.
Qed.

(** A catalog without repetition has at most 5 * 7 entries. *)
Lemma distinct_catalog_small (shapes : list Shape) (colors : list Color) :
  NoDup (iconCatalog shapes colors) ->
  (length (iconCatalog shapes colors) <= 35)%nat.
Proof.
  intros Hnd.
  change 35%nat with (length (iconCatalog ALLSHAPES ALLCOLORS)).
  apply submseteq_length, NoDup_submseteq; [done|].
  intros icon _. apply icon_in_full_catalog.
Qed.

(** With such a catalog the cell count stays far below 2^53. *)
Lemma distinct_catalog_product (shapes : list Shape) (colors : list Color) (w h : nat) :
  NoDup (iconCatalog shapes colors) ->
  (w * h / 2 <= length (iconCatalog shapes colors))%nat ->
  Z.of_nat w * Z.of_nat h < 2 ^ 53.
Proof.
  intros Hnd Hcat. pose proof (distinct_catalog_small shapes colors Hnd) as Hsmall.
  pose proof (half_bounds (w * h)) as Hhalf.
  rewrite <- Nat2Z.inj_mul. change (2 ^ 53) with 9007199254740992. lia.
Qed.

Lemma filter_eq_absent (icon : Icon) (l : list Icon) :
  icon ∉ l -> filter (fun c => c = icon) l = [].
Proof.
  induction l as [|c l IH]; intros Hnot; [done|].
  apply not_elem_of_cons in Hnot as [Hne Hnot].
  rewrite filter_cons_False by congruence. by apply IH.
Qed.

Lemma NoDup_filter_eq (icon : Icon) (l : list Icon) :
  NoDup l -> icon ∈ l -> length (filter (fun c => c = icon) l) = 1%nat.
Proof.
  induction 1 as [|c l Hc Hnd IH]; intros Hin.
  - by apply elem_of_nil in Hin.
  - destruct (decide (c = icon)) as [->|Hne].
    + rewrite filter_cons_True by done. simpl. by rewrite filter_eq_absent.
    + rewrite filter_cons_False by done. apply IH.
      apply elem_of_cons in Hin as [->|Hin]; done.
Qed.

(** C1: when the catalog entries are pairwise different, the product
    [w * h] is even and the catalog has at least [w * h / 2] entries,
    [getRandomizedBoard] returns a grid of [w] columns and [h] rows with
    exactly [w * h] cells in which every icon that occurs occurs in exactly
    two cells, whatever the random draws. *)
Theorem getRandomizedBoard_pairs (shapes : list Shape) (colors : list Color)
        (w h : nat) (g : Rng) :
  NoDup (iconCatalog shapes colors) ->
  Nat.Even (w * h) ->
  (w * h / 2 <= length (iconCatalog shapes colors))%nat ->
  exists (board : list (list Icon)) (g' : Rng),
    getRandomizedBoard shapes colors (Z.of_nat w) (Z.of_nat h) g = Ok (board, g') /\
    isGrid (Z.of_nat w) (Z.of_nat h) board /\
    length (concat board) = (w * h)%nat /\
    forall icon : Icon, icon ∈ concat board -> occurrences icon board = 2%nat.
Proof.
  intros Hnd Heven Hcat.
  destruct (getRandomizedBoard_ok shapes colors w h g)
    as (board & g' & allIcons & Hrun & Hgrid & Hp1 & Hp2 & Hlen).
  { by apply (distinct_catalog_product shapes colors). }
  { unfold configViolated. intros [Hodd|Hlt]; [|lia].
    by apply (Nat.Even_Odd_False (w * h)). }
  exists board, g'. do 3 (split; [done|]).
  intros icon Hin. unfold occurrences.
  rewrite Hp2 in Hin |- *.
  assert (icon ∈ take (w * h / 2) allIcons) as Hin'.
  { apply elem_of_app in Hin. tauto. }
  assert (NoDup (take (w * h / 2) allIcons)) as Hnd'.
  { eapply sublist_NoDup; [|apply sublist_take]. by rewrite Hp1. }
  by rewrite filter_app, length_app, (NoDup_filter_eq icon _ Hnd' Hin').
Qed.

Lemma getRandomizedBoard_pairs_witness :
  exists (board : list (list Icon)) (g' : Rng),
    getRandomizedBoard ALLSHAPES ALLCOLORS (Z.of_nat 10) (Z.of_nat 7) demoEntropy
      = Ok (board, g') /\
    isGrid (Z.of_nat 10) (Z.of_nat 7) board /\
    length (concat board) = (10 * 7)%nat /\
    forall icon : Icon, icon ∈ concat board -> occurrences icon board = 2%nat.
Proof.
  apply (getRandomizedBoard_pairs ALLSHAPES ALLCOLORS 10 7 demoEntropy).
  - apply (bool_decide_unpack _). vm_compute. exact I.
  - exists 35%nat. reflexivity.
  - vm_compute. lia.
Defined.

(** ** What happens when the preconditions do not hold *)

Lemma configViolated_dec (w h : nat) (shapes : list Shape) (colors : list Color) :
  configViolated w h shapes colors \/ ~ configViolated w h shapes colors.
Proof.
  unfold configViolated.
  destruct (Nat.Even_or_Odd (w * h)) as [Heven|Hodd]; [|by left; left].
  destruct (decide (length (iconCatalog shapes colors) < w * h / 2)%nat) as [Hlt|Hge].
  - left. by right.
  - right. intros [Hodd|Hlt]; [|done]. by apply (Nat.Even_Odd_False (w * h)).
Qed.

Lemma parity_of_nat (n : nat) :
  (Nat.Even n -> Z.of_nat n mod 2 = 0) /\ (Nat.Odd n -> Z.of_nat n mod 2 = 1).
Proof.
  split; intros [m ->].
  - rewrite Nat2Z.inj_mul, Z.mul_comm. apply Z_mod_mult.
  - rewrite Nat2Z.inj_add, Nat2Z.inj_mul, Z.add_comm, (Z.mul_comm (Z.of_nat 2)).
    by rewrite Z_mod_plus_full.
Qed.

Lemma moduleAsserts_run (w h : nat) (shapes : list Shape) (colors : list Color) :
  (configViolated w h shapes colors ->
   moduleAsserts (Z.of_nat w) (Z.of_nat h) shapes colors = Raise AssertionError) /\
  (~ configViolated w h shapes colors ->
   moduleAsserts (Z.of_nat w) (Z.of_nat h) shapes colors = Ok tt).
Proof.
  unfold configViolated, moduleAsserts, len.
  rewrite length_iconCatalog, <- !Nat2Z.inj_mul.
  pose proof (half_bounds (w * h)) as Hhalf.
  destruct (parity_of_nat (w * h)) as [Hpe Hpo].
  destruct (Nat.Even_or_Odd (w * h)) as [Heven|Hodd].
  - rewrite (Hpe Heven). change (0 =? 0) with true. cbn [negb].
    destruct Heven as [m Hm]. split.
    + intros [Hodd|Hlt].
      * destruct (Nat.Even_Odd_False (w * h)); [by exists m|done].
      * destruct (Z.leb_spec (Z.of_nat (w * h))
                             (Z.of_nat (length colors * length shapes) * 2)); [lia|done].
    + intros Hok.
      destruct (Z.leb_spec (Z.of_nat (w * h))
                           (Z.of_nat (length colors * length shapes) * 2)); [done|lia].
  - rewrite (Hpo Hodd). change (1 =? 0) with false. cbn [negb].
    split; [done|]. intros Hok. destruct Hok. by left.
Qed.

Lemma small_dimensions (w h : nat) :
  Z.of_nat w < 2 ^ 26 -> Z.of_nat h < 2 ^ 26 ->
  Z.of_nat w * Z.of_nat h < 2 ^ 53.
Proof.
  intros Hw Hh.
  apply Z.lt_trans with (2 ^ 26 * 2 ^ 26); [|reflexivity].
  apply Z.mul_lt_mono_nonneg; lia.
Qed.

Lemma margin_exact (windowsize boardsize : Z) :
  0 <= windowsize < 2 ^ 26 -> 0 <= boardsize < 2 ^ 26 ->
  exists margin,
    int_truediv (windowsize - boardsize * (BOXSIZE + GAPSIZE)) 2 = Ok margin.
Proof.
  intros Hw Hb. eexists. apply int_truediv_half.
  change (BOXSIZE + GAPSIZE) with 50.
  change (2 ^ 26) with 67108864 in *. change (2 ^ 53) with 9007199254740992. lia.
Qed.

(** With the margins in range, loading the module fails exactly as the two
    asserts do. *)
Lemma moduleImport_asserts (w h : nat) (shapes : list Shape) (colors : list Color) :
  Z.of_nat w < 2 ^ 26 -> Z.of_nat h < 2 ^ 26 ->
  match moduleAsserts (Z.of_nat w) (Z.of_nat h) shapes colors with
  | Ok _ => exists margins, moduleImport (Z.of_nat w) (Z.of_nat h) shapes colors = Ok margins
  | Raise e => moduleImport (Z.of_nat w) (Z.of_nat h) shapes colors = Raise e
  end.
Proof.
  intros Hw Hh. unfold moduleAsserts, moduleImport, pyAssert.
  destruct ((Z.of_nat w * Z.of_nat h) mod 2 =? 0); cbn [negb Py.bind]; [|done].
  destruct (margin_exact WINDOWWIDTH (Z.of_nat w)) as [xmargin ->]; [done|lia|].
  destruct (margin_exact WINDOWHEIGHT (Z.of_nat h)) as [ymargin ->]; [done|lia|].
  cbn [Py.bind].
  destruct (Z.of_nat w * Z.of_nat h <=? len colors * len shapes * 2);
    cbn [negb Py.bind]; eauto.
Qed.

(** C5, as the code has it, for dimensions below 2^26 each, where the
    float division of the module is exact.  The preconditions are that
    [w * h] is even and that the catalog has at least [w * h / 2] entries.
    Loading the module raises [AssertionError], at one of its two asserts,
    exactly when they do not hold; the script then stops before [main], so
    before any board is made: the run up to the first board ends in that
    [AssertionError].  [getRandomizedBoard] checks nothing itself: called
    on its own it raises [IndexError], from the exhausted icon list, exactly
    when the preconditions do not hold.  When they hold the module loads and
    the first board is the one [getRandomizedBoard] returns. *)
Theorem board_generation_failure (shapes : list Shape) (colors : list Color)
        (w h : nat) (g : Rng) :
  Z.of_nat w < 2 ^ 26 -> Z.of_nat h < 2 ^ 26 ->
  (moduleAsserts (Z.of_nat w) (Z.of_nat h) shapes colors = Raise AssertionError
   <-> configViolated w h shapes colors) /\
  ((exists e, moduleImport (Z.of_nat w) (Z.of_nat h) shapes colors = Raise e)
   <-> configViolated w h shapes colors) /\
  (moduleImport (Z.of_nat w) (Z.of_nat h) shapes colors = Raise AssertionError
   <-> configViolated w h shapes colors) /\
  (firstBoard (Z.of_nat w) (Z.of_nat h) shapes colors g = Raise AssertionError
   <-> configViolated w h shapes colors) /\
  (getRandomizedBoard shapes colors (Z.of_nat w) (Z.of_nat h) g = Raise IndexError
   <-> configViolated w h shapes colors) /\
  ((exists board g',
       firstBoard (Z.of_nat w) (Z.of_nat h) shapes colors g = Ok (board, g') /\
       getRandomizedBoard shapes colors (Z.of_nat w) (Z.of_nat h) g = Ok (board, g'))
   <-> ~ configViolated w h shapes colors).
Proof.
  intros Hw Hh. pose proof (small_dimensions w h Hw Hh) as Hsmall.
  destruct (moduleAsserts_run w h shapes colors) as [Hbad Hgood].
  pose proof (moduleImport_asserts w h shapes colors Hw Hh) as Himport.
  unfold firstBoard.
  destruct (configViolated_dec w h shapes colors) as [Hv|Hv].
  - rewrite (Hbad Hv) in Himport |- *. rewrite Himport. cbn [Py.bind].
    rewrite (getRandomizedBoard_short shapes colors w h g Hsmall Hv).
    split; [done|]. split; [split; [done|by exists AssertionError]|].
    do 3 (split; [done|]). split; [|done].
    intros (board & g' & Hrun & _). discriminate Hrun.
  - rewrite (Hgood Hv) in Himport |- *. destruct Himport as [margins ->].
    cbn [Py.bind].
    destruct (getRandomizedBoard_ok shapes colors w h g Hsmall Hv)
      as (board & g' & allIcons & -> & _).
    split; [split; [discriminate|done]|].
    split; [split; [by intros [e He]|done]|].
    do 3 (split; [split; [discriminate|done]|]).
    split; [done|]. eauto.
Qed.

(** An odd grid (3 by 3) on the full catalog, and an even grid (10 by 8) on
    a catalog cut down to the seven donuts. *)
Lemma board_generation_failure_witness :
  (moduleImport 3 3 ALLSHAPES ALLCOLORS = Raise AssertionError /\
   firstBoard 3 3 ALLSHAPES ALLCOLORS demoEntropy = Raise AssertionError /\
   getRandomizedBoard ALLSHAPES ALLCOLORS 3 3 demoEntropy = Raise IndexError) /\
  (moduleImport 10 8 [donut] ALLCOLORS = Raise AssertionError /\
   firstBoard 10 8 [donut] ALLCOLORS demoEntropy = Raise AssertionError /\
   getRandomizedBoard [donut] ALLCOLORS 10 8 demoEntropy = Raise IndexError).
Proof.
  split.
  - destruct (board_generation_failure ALLSHAPES ALLCOLORS 3 3 demoEntropy)
      as (_ & _ & Himport & Hfirst & Hboard & _); [reflexivity..|].
    assert (configViolated 3 3 ALLSHAPES ALLCOLORS) as Hv.
    { left. exists 4%nat. reflexivity. }
    split; [by apply Himport|]. split; [by apply Hfirst|by apply Hboard].
  - destruct (board_generation_failure [donut] ALLCOLORS 10 8 demoEntropy)
      as (_ & _ & Himport & Hfirst & Hboard & _); [reflexivity..|].
    assert (configViolated 10 8 [donut] ALLCOLORS) as Hv.
    { right. vm_compute. lia. }
    split; [by apply Himport|]. split; [by apply Hfirst|by apply Hboard].
Defined.

(** Beyond the float range the division raises before any icon is
    placed, whatever the catalog holds. *)
Lemma getRandomizedBoard_overflow :
  getRandomizedBoard ALLSHAPES ALLCOLORS (2 ^ 1025) 1 [] = Raise OverflowError /\
  getRandomizedBoard ALLSHAPES ALLCOLORS (- 1) (- 2 ^ 1100) [] = Raise OverflowError.
Proof. split; vm_compute; reflexivity. Qed.

(** The module as configured loads, with the margins 70 and 65, so the
    script is [main]. *)
Lemma moduleImport_margins :
  moduleImport BOARDWIDTH BOARDHEIGHT ALLSHAPES ALLCOLORS = Ok (XMARGIN, YMARGIN).
Proof. vm_compute. reflexivity. Qed.

Lemma script_main (g : Rng) (frames : list (list Event)) : script g frames = main g frames.
Proof. unfold script. by rewrite moduleImport_margins. Qed.

(** C5 as stated fails at width 3 and height 2: the product 6 is even, the
    asserts pass and a board of three columns and two rows is returned. *)
Lemma board_generated_for_3_by_2 :
  moduleAsserts 3 2 ALLSHAPES ALLCOLORS = Ok tt /\
  getRandomizedBoard ALLSHAPES ALLCOLORS 3 2 [] =
    Ok ([[(donut, green); (donut, yellow)];
         [(donut, blue); (donut, green)];
         [(donut, yellow); (donut, blue)]], []).
Proof. split; vm_compute; reflexivity. Qed.

(** * Further properties of the code *)

(** ** splitIntoGroupsOf: step zero, negative sizes, group sizes *)

Lemma range_len_nonpos (n size : Z) : size < 0 -> 0 <= n -> range_len 0 n size = 0%nat.
Proof.
  intros Hs Hn. unfold range_len. destruct (Z.ltb_spec 0 size); [lia|].
  assert ((0 - n - size - 1) / - size <= 0) as Hq.
  { apply Z.lt_succ_r. apply Z.div_lt_upper_bound; lia. }
  lia.
Qed.

(** X1: a size of zero raises [ValueError] (the step of the range), a
    negative size returns no group at all, whatever the items, and an empty
    list gives no group for every size but zero. *)
Theorem splitIntoGroupsOf_degenerate {A} (size : Z) (items : list A) :
  (size = 0 -> splitIntoGroupsOf size items = Raise ValueError) /\
  (size < 0 -> splitIntoGroupsOf size items = Ok []) /\
  (size <> 0 -> splitIntoGroupsOf size (@nil A) = Ok []).
Proof.
  unfold splitIntoGroupsOf, range3. split; [|split].
  - intros ->. reflexivity.
  - intros Hs. destruct (Z.eqb_spec size 0); [lia|]. cbn [Py.bind].
    by rewrite range_len_nonpos by (done || apply len_nonneg).
  - intros Hs. destruct (Z.eqb_spec size 0); [lia|]. cbn [Py.bind].
    assert (range_len 0 (len (@nil A)) size = 0%nat) as ->; [|done].
    destruct (Z.lt_ge_cases size 0) as [Hneg|Hpos].
    + by apply range_len_nonpos.
    + unfold range_len, len. simpl. destruct (Z.ltb_spec 0 size); [|lia].
      rewrite Z.div_small by lia. done.
Qed.

Lemma range_len_exact (size : Z) (n : nat) :
  1 <= size ->
  Z.of_nat (range_len 0 (Z.of_nat n) size) = (Z.of_nat n + size - 1) / size.
Proof.
  intros Hs. unfold range_len. destruct (Z.ltb_spec 0 size); [|lia].
  replace (Z.of_nat n - 0 + size - 1) with (Z.of_nat n + size - 1) by lia.
  apply Z2Nat.id, Z.div_pos; lia.
Qed.

Lemma range_len_last (size : Z) (n k : nat) :
  1 <= size -> (k < range_len 0 (Z.of_nat n) size)%nat ->
  (k * Z.to_nat size < n)%nat.
Proof.
  intros Hs. unfold range_len. destruct (Z.ltb_spec 0 size); [|lia].
  replace (Z.of_nat n - 0 + size - 1) with (Z.of_nat n + size - 1) by lia.
  pose proof (Z.div_mod (Z.of_nat n + size - 1) size ltac:(lia)) as Hdm.
  pose proof (Z.mod_pos_bound (Z.of_nat n + size - 1) size ltac:(lia)) as Hm.
  intros Hk. nia.
Qed.

(** X2: for a size of at least 1 there are [ceil(len(items) / size)] groups,
    none of them empty and none longer than [size]. *)
Theorem splitIntoGroupsOf_group_sizes {A} (size : Z) (items : list A) :
  1 <= size ->
  exists groups,
    splitIntoGroupsOf size items = Ok groups /\
    len groups = (len items + size - 1) / size /\
    Forall (fun group => 1 <= len group <= size) groups.
Proof.
  intros Hs. eexists. split; [by apply splitIntoGroupsOf_pieces|]. split.
  - unfold len at 1. rewrite length_fmap, length_seq. by apply range_len_exact.
  - apply Forall_fmap, Forall_forall. intros k Hk.
    apply elem_of_seq in Hk as [_ Hk]. simpl in Hk. simpl.
    pose proof (range_len_last size (length items) k Hs Hk).
    unfold len. rewrite length_take, length_drop. lia.
Qed.

Lemma splitIntoGroupsOf_group_sizes_witness :
  exists groups,
    splitIntoGroupsOf 8 allBoxes = Ok groups /\
    len groups = (len allBoxes + 8 - 1) / 8 /\
    Forall (fun group => 1 <= len group <= 8) groups.
Proof. apply (splitIntoGroupsOf_group_sizes 8 allBoxes). lia. Defined.

(** ** The reveal-state grid *)

Lemma length_mul_singleton {A} (v : A) (n : Z) : length (mul [v] n) = Z.to_nat n.
Proof.
  unfold mul. induction (Z.to_nat n) as [|k IH]; simpl; [done|]. by rewrite IH.
Qed.

Lemma elem_of_mul_singleton {A} (v x : A) (n : Z) : x ∈ mul [v] n -> x = v.
Proof.
  unfold mul. induction (Z.to_nat n) as [|k IH]; simpl.
  - by intros ?%elem_of_nil.
  - intros [->|Hin]%elem_of_cons; [done|]. by apply IH.
Qed.

Lemma generateRevealedBoxesData_cells (revealed : bool) (width height : Z)
      (col : list bool) (v : bool) :
  col ∈ generateRevealedBoxesData revealed width height -> v ∈ col -> v = revealed.
Proof.
  unfold generateRevealedBoxesData.
  intros [i [-> _]]%list_elem_of_fmap Hv. by apply elem_of_mul_singleton in Hv.
Qed.

Lemma generateRevealedBoxesData_isGrid (revealed : bool) (width height : Z) :
  isGrid (Z.max 0 width) (Z.max 0 height)
         (generateRevealedBoxesData revealed width height).
Proof.
  unfold generateRevealedBoxesData. split.
  - unfold len. rewrite length_fmap, length_range. lia.
  - apply Forall_fmap, Forall_forall. intros i _. simpl.
    unfold len. rewrite length_mul_singleton. lia.
Qed.

(** X3: [generateRevealedBoxesData] builds a grid of [width] columns and
    [height] rows (none for a dimension that is zero or negative) in which
    every cell holds the given value. *)
Theorem generateRevealedBoxesData_grid (revealed : bool) (width height : Z) :
  isGrid (Z.max 0 width) (Z.max 0 height)
         (generateRevealedBoxesData revealed width height) /\
  forall (col : list bool) (v : bool),
    col ∈ generateRevealedBoxesData revealed width height -> v ∈ col -> v = revealed.
Proof.
  split.
  - apply generateRevealedBoxesData_isGrid.
  - apply generateRevealedBoxesData_cells.
Qed.

(** X4: a grid made all-visible counts as won; a grid made all-hidden
    counts as won exactly when it has no cell, that is when a dimension is
    zero or negative. *)
Theorem hasWon_fresh_grid (width height : Z) :
  hasWon (generateRevealedBoxesData true width height) = true /\
  (hasWon (generateRevealedBoxesData false width height) = true
   <-> width <= 0 \/ height <= 0).
Proof.
  split.
  - apply hasWon_true_Forall, Forall_forall. intros col Hcol Hfalse.
    by pose proof (generateRevealedBoxesData_cells true width height
                     col false Hcol Hfalse).
  - rewrite hasWon_true_Forall. unfold generateRevealedBoxesData.
    rewrite Forall_fmap, Forall_forall. split.
    + intros Hall. destruct (Z.le_gt_cases width 0) as [Hw|Hw]; [by left|right].
      destruct (Z.le_gt_cases height 0) as [Hh|Hh]; [done|].
      destruct (Hall 0) as []. { apply elem_of_range. lia. }
      simpl. unfold mul. destruct (Z.to_nat height) as [|k] eqn:Hk; [lia|].
      simpl. apply list_elem_of_here.
    + intros Hdim i Hi. simpl. apply elem_of_range in Hi.
      destruct Hdim as [Hw|Hh]; [lia|].
      unfold mul. replace (Z.to_nat height) with 0%nat by lia. simpl.
      apply not_elem_of_nil.
Qed.

(** ** Writing and reading a cell *)

Section SetGet.
Context {A : Type}.
Implicit Types (l : list A) (i j : Z).

Lemma setitem_Ok l i v l' :
  setitem l i v = Ok l' ->
  0 <= wrap l i < len l /\ l' = <[Z.to_nat (wrap l i) := v]> l.
Proof.
  unfold setitem.
  destruct (Z.ltb_spec (wrap l i) 0); simpl; [done|].
  destruct (Z.leb_spec (len l) (wrap l i)); [done|].
  intros [= <-]. split; [lia|done].
Qed.

Lemma setitem_len l i v l' : setitem l i v = Ok l' -> len l' = len l.
Proof.
  intros [_ ->]%setitem_Ok. unfold len. by rewrite length_insert.
Qed.

Lemma setitem_getitem l i v l' : setitem l i v = Ok l' -> getitem l' i = Ok v.
Proof.
  intros Hset. pose proof (setitem_len _ _ _ _ Hset) as Hlen.
  assert (wrap l' i = wrap l i) as Hwrap by (unfold wrap; by rewrite Hlen).
  apply setitem_Ok in Hset as [Hk ->]. unfold getitem. rewrite Hwrap.
  destruct (Z.ltb_spec (wrap l i) 0); [lia|].
  rewrite list_lookup_insert_eq; [done|]. unfold len in Hk. lia.
Qed.

Lemma setitem_getitem_ne l i j v l' :
  setitem l i v = Ok l' -> wrap l i <> wrap l j -> getitem l' j = getitem l j.
Proof.
  intros Hset Hne. pose proof (setitem_len _ _ _ _ Hset) as Hlen.
  assert (wrap l' j = wrap l j) as Hwrap by (unfold wrap; by rewrite Hlen).
  apply setitem_Ok in Hset as [Hk ->]. unfold getitem. rewrite Hwrap.
  destruct (Z.ltb_spec (wrap l j) 0); [done|].
  rewrite list_lookup_insert_ne; [done|]. lia.
Qed.

Lemma setitem_outside l i v :
  i < - len l \/ len l <= i -> setitem l i v = Raise IndexError.
Proof.
  intros Hi. unfold setitem, wrap. pose proof (len_nonneg l).
  destruct (Z.ltb_spec i 0).
  - destruct (Z.ltb_spec (i + len l) 0); [done|]. lia.
  - destruct (Z.ltb_spec i 0); [lia|].
    destruct (Z.leb_spec (len l) i); [done|lia].
Qed.

Lemma getitem_Ok_wrap l i a :
  getitem l i = Ok a -> 0 <= wrap l i < len l /\ l !! Z.to_nat (wrap l i) = Some a.
Proof.
  unfold getitem. destruct (Z.ltb_spec (wrap l i) 0); [done|].
  destruct (l !! Z.to_nat (wrap l i)) as [x|] eqn:Hx; [|done].
  intros [= ->]. split; [|done]. apply lookup_lt_Some in Hx. unfold len. lia.
Qed.

End SetGet.

Lemma setIconVisible_Ok (revealed revealed' : list (list bool)) (box : Box) (v : bool) :
  setIconVisible revealed box v = Ok revealed' ->
  exists col col',
    getitem revealed box.1 = Ok col /\
    setitem col box.2 v = Ok col' /\
    setitem revealed box.1 col' = Ok revealed'.
Proof.
  unfold setIconVisible. intros H.
  destruct (getitem revealed box.1) as [col|] eqn:Hcol; cbn [Py.bind] in H; [|done].
  destruct (setitem col box.2 v) as [col'|] eqn:Hcol'; cbn [Py.bind] in H; [|done].
  eauto.
Qed.

Lemma setIconVisible_reads_back (revealed revealed' : list (list bool))
      (box : Box) (v : bool) :
  setIconVisible revealed box v = Ok revealed' -> iconVisible revealed' box = Ok v.
Proof.
  intros (col & col' & Hcol & Hset & Hput)%setIconVisible_Ok.
  unfold iconVisible. rewrite (setitem_getitem _ _ _ _ Hput). cbn [Py.bind].
  by apply (setitem_getitem col).
Qed.

Lemma setIconVisible_keeps_grid (revealed revealed' : list (list bool))
      (box : Box) (v : bool) (w h : Z) :
  setIconVisible revealed box v = Ok revealed' ->
  isGrid w h revealed -> isGrid w h revealed'.
Proof.
  intros (col & col' & Hcol & Hset & Hput)%setIconVisible_Ok [Hw Hh].
  pose proof (setitem_len _ _ _ _ Hput) as Hlen.
  pose proof (setitem_len _ _ _ _ Hset) as Hlen'.
  apply getitem_Ok_wrap in Hcol as [_ Hcol].
  apply setitem_Ok in Hput as [_ ->]. split; [lia|].
  apply Forall_insert; [done|].
  rewrite Forall_lookup in Hh. rewrite Hlen'. by apply (Hh _ _ Hcol).
Qed.

Lemma setIconVisible_other (revealed revealed' : list (list bool))
      (box box' : Box) (v : bool) :
  setIconVisible revealed box v = Ok revealed' ->
  0 <= box.1 -> 0 <= box.2 -> 0 <= box'.1 -> 0 <= box'.2 -> box <> box' ->
  iconVisible revealed' box' = iconVisible revealed box'.
Proof.
  intros (col & col' & Hcol & Hset & Hput)%setIconVisible_Ok Hi Hj Hi' Hj' Hne.
  unfold iconVisible.
  destruct (decide (box.1 = box'.1)) as [Heq|Hne1].
  - rewrite <- Heq, (setitem_getitem _ _ _ _ Hput), Hcol. cbn [Py.bind].
    apply (setitem_getitem_ne col box.2 box'.2 v col' Hset).
    rewrite !wrap_nonneg by done. intros Heq2. apply Hne.
    destruct box, box'. simpl in *. congruence.
  - rewrite (setitem_getitem_ne revealed box.1 box'.1 col' revealed' Hput); [done|].
    by rewrite !wrap_nonneg.
Qed.

(** X5: when [setIconVisible] succeeds, whatever the box (negative
    coordinates are counted from the end), [iconVisible] at the same box
    returns the value written, and the grid keeps its dimensions. *)
Theorem setIconVisible_then_iconVisible (revealed revealed' : list (list bool))
        (box : Box) (v : bool) (w h : Z) :
  setIconVisible revealed box v = Ok revealed' ->
  iconVisible revealed' box = Ok v /\
  (isGrid w h revealed -> isGrid w h revealed').
Proof.
  intros Hset. split.
  - by apply (setIconVisible_reads_back revealed).
  - by apply (setIconVisible_keeps_grid revealed revealed' box v).
Qed.

Lemma setIconVisible_then_iconVisible_witness :
  exists revealed',
    setIconVisible demoRevealed (- 1, 3) true = Ok revealed' /\
    iconVisible revealed' (- 1, 3) = Ok true /\
    (isGrid BOARDWIDTH BOARDHEIGHT demoRevealed ->
     isGrid BOARDWIDTH BOARDHEIGHT revealed').
Proof.
  eexists. split; [vm_compute; reflexivity|].
  apply (setIconVisible_then_iconVisible demoRevealed _ (- 1, 3) true).
  vm_compute. reflexivity.
Defined.

(** X6: [setIconVisible] changes one cell only: at every other box of
    non-negative coordinates [iconVisible] answers as before, an
    [IndexError] included. *)
Theorem setIconVisible_frame (revealed revealed' : list (list bool))
        (box box' : Box) (v : bool) :
  setIconVisible revealed box v = Ok revealed' ->
  0 <= box.1 -> 0 <= box.2 -> 0 <= box'.1 -> 0 <= box'.2 -> box <> box' ->
  iconVisible revealed' box' = iconVisible revealed box'.
Proof. apply setIconVisible_other. Qed.

Lemma setIconVisible_frame_witness :
  exists revealed',
    setIconVisible demoRevealed (2, 3) true = Ok revealed' /\
    iconVisible revealed' (2, 4) = iconVisible demoRevealed (2, 4).
Proof.
  eexists. split; [vm_compute; reflexivity|].
  apply (setIconVisible_frame demoRevealed _ (2, 3) (2, 4) true);
    [vm_compute; reflexivity|simpl; lia..|discriminate].
Defined.

(** X7: on a grid of [w] columns and [h] rows, [iconVisible] and
    [setIconVisible] raise [IndexError] for every box with a coordinate at
    least its dimension or below minus its dimension. *)
Theorem reveal_state_index_error (revealed : list (list bool)) (w h : Z)
        (box : Box) (v : bool) :
  isGrid w h revealed ->
  box.1 < - w \/ w <= box.1 \/ box.2 < - h \/ h <= box.2 ->
  iconVisible revealed box = Raise IndexError /\
  setIconVisible revealed box v = Raise IndexError.
Proof.
  intros [Hw Hh] Hout. unfold iconVisible, setIconVisible.
  destruct (decide (- w <= box.1 < w)) as [Hi|Hi].
  - rewrite <- Hw in Hi.
    destruct (getitem_wrapped revealed box.1 Hi) as (col & Hcol & ->).
    cbn [Py.bind]. rewrite Forall_lookup in Hh. pose proof (Hh _ _ Hcol) as Hlen.
    rewrite getitem_outside, setitem_outside by lia. done.
  - rewrite getitem_outside by lia. done.
Qed.

Lemma reveal_state_index_error_witness :
  iconVisible demoRevealed (3, 7) = Raise IndexError /\
  setIconVisible demoRevealed (3, 7) true = Raise IndexError.
Proof.
  apply (reveal_state_index_error demoRevealed BOARDWIDTH BOARDHEIGHT (3, 7) true).
  - apply demoRevealed_isGrid.
  - simpl. unfold BOARDHEIGHT. lia.
Defined.

(** ** The hit test *)

Lemma collidepoint_getBoxRect (box : Box) (pos : Z * Z) :
  collidepoint (getBoxRect box) pos = true <->
  box.1 * 50 + 70 <= pos.1 < box.1 * 50 + 110 /\
  box.2 * 50 + 65 <= pos.2 < box.2 * 50 + 105.
Proof.
  unfold collidepoint, getBoxRect, getBoxPos. cbn [left top width height fst snd].
  change (BOXSIZE + GAPSIZE) with 50. change XMARGIN with 70.
  change YMARGIN with 65. change BOXSIZE with 40.
  rewrite !andb_true_iff, !Z.leb_le, !Z.ltb_lt. lia.
Qed.

Lemma collidepoint_unique (a b : Box) (pos : Z * Z) :
  collidepoint (getBoxRect a) pos = true ->
  collidepoint (getBoxRect b) pos = true ->
  a = b.
Proof.
  rewrite !collidepoint_getBoxRect. intros Ha Hb.
  destruct a as [a1 a2], b as [b1 b2]. simpl in *. f_equal; lia.
Qed.

Lemma getBoxCell_hit (pos : Z * Z) (box : Box) :
  box ∈ allBoxes -> collidepoint (getBoxRect box) pos = true ->
  getBoxCell pos = Some box.
Proof.
  intros Hin Hhit. destruct (getBoxCell pos) as [box'|] eqn:Hcell.
  - destruct (getBoxCell_Some pos box' Hcell) as [_ Hhit'].
    f_equal. by apply (collidepoint_unique box' box pos).
  - unfold getBoxCell in Hcell.
    pose proof (find_none _ _ Hcell box (proj1 (list_elem_of_In _ _) Hin)) as Hno.
    simpl in Hno. congruence.
Qed.

(** X8: the rectangles of two different boxes share no pixel, and the
    rectangle of every box of the grid lies inside the window. *)
Theorem getBoxRect_disjoint_inside (a b : Box) (pos : Z * Z) :
  (a <> b ->
   collidepoint (getBoxRect a) pos = true ->
   collidepoint (getBoxRect b) pos = false) /\
  (a ∈ allBoxes ->
   collidepoint (getBoxRect a) pos = true ->
   0 <= pos.1 < WINDOWWIDTH /\ 0 <= pos.2 < WINDOWHEIGHT).
Proof.
  split.
  - intros Hne Ha. apply not_true_is_false. intros Hb.
    by apply Hne, (collidepoint_unique a b pos).
  - intros [Hi Hj]%elem_of_allBoxes Ha. apply collidepoint_getBoxRect in Ha.
    unfold BOARDWIDTH, BOARDHEIGHT, WINDOWWIDTH, WINDOWHEIGHT in *. lia.
Qed.

(** X9: [getBoxCell] returns a box exactly for the pixels of that box's
    rectangle, the box being one of the grid: the first hit found by the
    search is the only one. *)
Theorem getBoxCell_iff (pos : Z * Z) (box : Box) :
  getBoxCell pos = Some box <->
  (0 <= box.1 < BOARDWIDTH /\ 0 <= box.2 < BOARDHEIGHT) /\
  (getBoxPos box).1 <= pos.1 < (getBoxPos box).1 + BOXSIZE /\
  (getBoxPos box).2 <= pos.2 < (getBoxPos box).2 + BOXSIZE.
Proof.
  unfold getBoxPos. cbn [fst snd]. change (BOXSIZE + GAPSIZE) with 50.
  change XMARGIN with 70. change YMARGIN with 65. change BOXSIZE with 40.
  split.
  - intros [Hin Hhit]%getBoxCell_Some.
    apply elem_of_allBoxes in Hin. apply collidepoint_getBoxRect in Hhit.
    split; [done|]. lia.
  - intros (Hin & Hx & Hy). apply getBoxCell_hit.
    + by apply elem_of_allBoxes.
    + apply collidepoint_getBoxRect. lia.
Qed.

(** The column (or row) a coordinate falls in, if any: past the margin,
    before the far edge, and not in the gap after a box. *)
Lemma stripe_iff (x margin n : Z) (i : Z) :
  0 <= n ->
  (0 <= i < n /\ i * 50 + margin <= x < i * 50 + margin + 40) <->
  (margin <= x < margin + n * 50 /\ (x - margin) mod 50 < 40 /\ i = (x - margin) / 50).
Proof.
  intros Hn.
  pose proof (Z.div_mod (x - margin) 50 ltac:(lia)) as Hdm.
  pose proof (Z.mod_pos_bound (x - margin) 50 ltac:(lia)) as Hm.
  split.
  - intros [Hi Hx].
    assert (i = (x - margin) / 50) as Hq.
    { apply (Z.div_unique (x - margin) 50 i (x - margin - 50 * i)); lia. }
    rewrite <- Hq in Hdm. split; [lia|]. split; [lia|done].
  - intros (Hx & Hr & ->). split; [|lia].
    split; [apply Z.div_pos; lia|]. apply Z.div_lt_upper_bound; lia.
Qed.

Lemma getBoxCell_formula (x y : Z) :
  getBoxCell (x, y) =
    if (XMARGIN <=? x) && (x <? XMARGIN + BOARDWIDTH * (BOXSIZE + GAPSIZE)) &&
       ((x - XMARGIN) mod (BOXSIZE + GAPSIZE) <? BOXSIZE) &&
       (YMARGIN <=? y) && (y <? YMARGIN + BOARDHEIGHT * (BOXSIZE + GAPSIZE)) &&
       ((y - YMARGIN) mod (BOXSIZE + GAPSIZE) <? BOXSIZE)
    then Some ((x - XMARGIN) / (BOXSIZE + GAPSIZE), (y - YMARGIN) / (BOXSIZE + GAPSIZE))
    else None.
Proof.
  change (BOXSIZE + GAPSIZE) with 50. change XMARGIN with 70.
  change YMARGIN with 65. change BOXSIZE with 40.
  pose proof (stripe_iff x 70 BOARDWIDTH) as Hcol.
  pose proof (stripe_iff y 65 BOARDHEIGHT) as Hrow.
  destruct ((70 <=? x) && (x <? 70 + BOARDWIDTH * 50) && ((x - 70) mod 50 <? 40) &&
            (65 <=? y) && (y <? 65 + BOARDHEIGHT * 50) && ((y - 65) mod 50 <? 40))
    eqn:Hcond.
  - rewrite !andb_true_iff, !Z.leb_le, !Z.ltb_lt in Hcond.
    apply getBoxCell_hit.
    + apply elem_of_allBoxes. cbn [fst snd].
      split; [apply (Hcol ((x - 70) / 50))|apply (Hrow ((y - 65) / 50))];
        (done || tauto).
    + apply collidepoint_getBoxRect. cbn [fst snd].
      pose proof (proj2 (Hcol ((x - 70) / 50) ltac:(done)) ltac:(tauto)).
      pose proof (proj2 (Hrow ((y - 65) / 50) ltac:(done)) ltac:(tauto)).
      lia.
  - destruct (getBoxCell (x, y)) as [box|] eqn:Hcell; [|done].
    destruct (getBoxCell_Some _ _ Hcell) as [Hin Hhit].
    apply elem_of_allBoxes in Hin. apply collidepoint_getBoxRect in Hhit.
    cbn [fst snd] in Hhit.
    pose proof (proj1 (Hcol box.1 ltac:(done)) ltac:(lia)) as (Hx1 & Hx2 & _).
    pose proof (proj1 (Hrow box.2 ltac:(done)) ltac:(lia)) as (Hy1 & Hy2 & _).
    assert (((70 <=? x) && (x <? 70 + BOARDWIDTH * 50) && ((x - 70) mod 50 <? 40) &&
             (65 <=? y) && (y <? 65 + BOARDHEIGHT * 50) && ((y - 65) mod 50 <? 40))
            = true) as Htrue.
    { rewrite !andb_true_iff, !Z.leb_le, !Z.ltb_lt. lia. }
    congruence.
Qed.

(** X10: the hit test in closed form.  A pixel hits a box when it lies past
    the margins, inside the 10 by 7 block of cells, and in neither
    direction in the 10-pixel gap that follows each box; the box is then
    found by division.  Every other pixel gives [None]. *)
Theorem getBoxCell_closed_form (x y : Z) :
  getBoxCell (x, y) =
    if (XMARGIN <=? x) && (x <? XMARGIN + BOARDWIDTH * (BOXSIZE + GAPSIZE)) &&
       ((x - XMARGIN) mod (BOXSIZE + GAPSIZE) <? BOXSIZE) &&
       (YMARGIN <=? y) && (y <? YMARGIN + BOARDHEIGHT * (BOXSIZE + GAPSIZE)) &&
       ((y - YMARGIN) mod (BOXSIZE + GAPSIZE) <? BOXSIZE)
    then Some ((x - XMARGIN) / (BOXSIZE + GAPSIZE), (y - YMARGIN) / (BOXSIZE + GAPSIZE))
    else None.
Proof. apply getBoxCell_formula. Qed.

Lemma getBoxRect_disjoint_inside_witness :
  collidepoint (getBoxRect (1, 1)) (120, 115) = true /\
  collidepoint (getBoxRect (2, 1)) (120, 115) = false /\
  (0 <= 120 < WINDOWWIDTH /\ 0 <= 115 < WINDOWHEIGHT).
Proof.
  split; [reflexivity|].
  destruct (getBoxRect_disjoint_inside (1, 1) (2, 1) (120, 115)) as [Hdis Hin].
  split.
  - apply Hdis; [discriminate|reflexivity].
  - apply Hin; [|reflexivity]. apply elem_of_allBoxes. simpl.
    unfold BOARDWIDTH, BOARDHEIGHT. lia.
Defined.

(** ** getRandomizedBoard: empty dimensions, distinct icons *)

Lemma range_nonpos (n : Z) : n <= 0 -> range n = [].
Proof. intros Hn. unfold range. by replace (Z.to_nat n) with 0%nat by lia. Qed.

Lemma comprehension_constant {S B A} (body : B -> S -> Res (A * S)) (a : A)
      (xs : list B) (s : S) :
  (forall x s', body x s' = Ok (a, s')) ->
  comprehension body xs s = Ok (replicate (length xs) a, s).
Proof.
  intros Hbody. induction xs as [|x xs IH]; simpl; [done|].
  by rewrite Hbody, IH.
Qed.

(** X11: for dimensions whose product is below 2^53 in absolute value,
    where [int(width * height / 2)] does not raise: with a width of zero or
    less [getRandomizedBoard] returns the empty board, and with a height of
    zero or less it returns [width] empty columns; neither case raises,
    whatever the catalog. *)
Theorem getRandomizedBoard_empty_dimensions (shapes : list Shape) (colors : list Color)
        (width height : Z) (g : Rng) :
  Z.abs (width * height) < 2 ^ 53 ->
  (width <= 0 ->
   exists g', getRandomizedBoard shapes colors width height g = Ok ([], g')) /\
  (height <= 0 ->
   exists g', getRandomizedBoard shapes colors width height g
              = Ok (replicate (Z.to_nat width) [], g')).
Proof.
  intros Hsmall. unfold getRandomizedBoard.
  destruct (shuffle (iconCatalog shapes colors) g) as [allIcons g1].
  rewrite (int_truediv_half _ Hsmall). cbn [Py.bind].
  destruct (shuffle (mul (slice allIcons 0 (Z.quot (width * height) 2)) 2) g1)
    as [icons g2].
  split.
  - intros Hw. rewrite (range_nonpos width Hw). simpl. eauto.
  - intros Hh. rewrite (range_nonpos height Hh).
    rewrite (comprehension_constant _ []) by done.
    cbn [Py.bind]. rewrite length_range. eauto.
Qed.

Lemma getRandomizedBoard_empty_dimensions_witness :
  (exists g', getRandomizedBoard ALLSHAPES ALLCOLORS (- 2) 3 demoEntropy = Ok ([], g')) /\
  (exists g', getRandomizedBoard ALLSHAPES ALLCOLORS 3 0 demoEntropy
              = Ok (replicate (Z.to_nat 3) [], g')).
Proof.
  split.
  - destruct (getRandomizedBoard_empty_dimensions ALLSHAPES ALLCOLORS (- 2) 3 demoEntropy)
      as [Hwidth _]; [reflexivity|].
    apply Hwidth. lia.
  - destruct (getRandomizedBoard_empty_dimensions ALLSHAPES ALLCOLORS 3 0 demoEntropy)
      as [_ Hheight]; [reflexivity|].
    apply Hheight. lia.
Defined.

Lemma doubled_distinct (t l : list Icon) :
  NoDup t -> l ≡ₚ t ++ t -> remove_dups l ≡ₚ t.
Proof.
  intros Hnd Hp. apply NoDup_Permutation; [apply NoDup_remove_dups|done|].
  intros icon. rewrite elem_of_remove_dups, Hp, elem_of_app. tauto.
Qed.

(** X12: under the preconditions of board generation, the board holds
    exactly [w * h / 2] different icons, each of them an entry of the
    catalog. *)
Theorem getRandomizedBoard_distinct_icons (shapes : list Shape) (colors : list Color)
        (w h : nat) (g : Rng) :
  NoDup (iconCatalog shapes colors) ->
  Nat.Even (w * h) ->
  (w * h / 2 <= length (iconCatalog shapes colors))%nat ->
  exists (board : list (list Icon)) (g' : Rng),
    getRandomizedBoard shapes colors (Z.of_nat w) (Z.of_nat h) g = Ok (board, g') /\
    length (remove_dups (concat board)) = (w * h / 2)%nat /\
    forall icon : Icon, icon ∈ concat board -> icon ∈ iconCatalog shapes colors.
Proof.
  intros Hnd Heven Hcat.
  destruct (getRandomizedBoard_ok shapes colors w h g)
    as (board & g' & allIcons & Hrun & Hgrid & Hp1 & Hp2 & Hlen).
  { by apply (distinct_catalog_product shapes colors). }
  { unfold configViolated. intros [Hodd|Hlt]; [|lia].
    by apply (Nat.Even_Odd_False (w * h)). }
  exists board, g'. split; [done|].
  assert (NoDup (take (w * h / 2) allIcons)) as Hnd'.
  { eapply sublist_NoDup; [|apply sublist_take]. by rewrite Hp1. }
  split.
  - rewrite (doubled_distinct _ _ Hnd' Hp2), length_take, Hp1. lia.
  - intros icon Hin. rewrite Hp2 in Hin. rewrite <- Hp1.
    apply elem_of_app in Hin.
    eapply elem_of_sublist; [|apply (sublist_take allIcons (w * h / 2))]. tauto.
Qed.

Lemma getRandomizedBoard_distinct_icons_witness :
  exists (board : list (list Icon)) (g' : Rng),
    getRandomizedBoard ALLSHAPES ALLCOLORS (Z.of_nat 4) (Z.of_nat 2) demoEntropy
      = Ok (board, g') /\
    length (remove_dups (concat board)) = (4 * 2 / 2)%nat /\
    forall icon : Icon, icon ∈ concat board -> icon ∈ iconCatalog ALLSHAPES ALLCOLORS.
Proof.
  apply (getRandomizedBoard_distinct_icons ALLSHAPES ALLCOLORS 4 2 demoEntropy).
  - apply (bool_decide_unpack _). vm_compute. exact I.
  - exists 4%nat. reflexivity.
  - vm_compute. lia.
Defined.

(** ** createBoard *)

Lemma allBoxes_inBounds {A} (grid : list (list A)) (box : Box) :
  isGrid BOARDWIDTH BOARDHEIGHT grid -> box ∈ allBoxes -> inBounds grid box.
Proof.
  intros Hgrid [Hi Hj]%elem_of_allBoxes.
  by apply (isGrid_inBounds grid BOARDWIDTH BOARDHEIGHT).
Qed.

Lemma drawBoard_ok (board : list (list Icon)) (revealed : list (list bool)) :
  isGrid BOARDWIDTH BOARDHEIGHT board ->
  isGrid BOARDWIDTH BOARDHEIGHT revealed ->
  drawBoard board revealed = Ok tt.
Proof.
  intros Hb Hr. apply for_each_unit_ok. intros box Hbox.
  destruct (iconVisible_inBounds revealed box (allBoxes_inBounds _ _ Hr Hbox))
    as (v & _ & ->).
  cbn [Py.bind]. destruct v; [|done].
  by apply drawIcon_ok, allBoxes_inBounds.
Qed.

Lemma startGameAnimation_ok (board : list (list Icon)) (g : Rng) :
  isGrid BOARDWIDTH BOARDHEIGHT board ->
  exists g', startGameAnimation board g = Ok g'.
Proof.
  intros Hb. unfold startGameAnimation.
  pose proof (shuffle_Permutation allBoxes g) as Hperm.
  destruct (shuffle allBoxes g) as [boxes g1]. simpl in Hperm.
  rewrite splitIntoGroupsOf_pieces by lia. cbn [Py.bind].
  rewrite drawBoard_ok by (done || apply (generateRevealedBoxesData_isGrid false)).
  cbn [Py.bind]. rewrite for_each_unit_ok; [cbn [Py.bind]; eauto|].
  intros group [k [-> _]]%list_elem_of_fmap.
  assert (Forall (inBounds board) (take (Z.to_nat 8) (drop (k * Z.to_nat 8) boxes)))
    as Hall.
  { apply Forall_forall. intros box Hbox. apply allBoxes_inBounds; [done|].
    rewrite <- Hperm.
    eapply elem_of_sublist; [exact Hbox|].
    etransitivity; [apply sublist_take|apply sublist_drop]. }
  rewrite revealBoxesAnimation_ok by done. cbn [Py.bind].
  by apply coverBoxesAnimation_ok.
Qed.

Lemma fullConfig_ok : ~ configViolated 10 7 ALLSHAPES ALLCOLORS.
Proof.
  intros [[m Hm]|Hlt].
  - change (10 * 7)%nat with 70%nat in Hm. lia.
  - vm_compute in Hlt. lia.
Qed.

Lemma doubled_occurrences (t l : list Icon) (icon : Icon) :
  NoDup t -> l ≡ₚ t ++ t -> icon ∈ l ->
  length (filter (fun c => c = icon) l) = 2%nat.
Proof.
  intros Hnd Hp Hin. rewrite Hp in Hin |- *.
  assert (icon ∈ t) as Hin' by (apply elem_of_app in Hin; tauto).
  by rewrite filter_app, length_app, (NoDup_filter_eq icon _ Hnd Hin').
Qed.

Lemma fullCatalog_NoDup : NoDup (iconCatalog ALLSHAPES ALLCOLORS).
Proof. apply (bool_decide_unpack _). vm_compute. exact I. Qed.

Lemma createBoard_run (g : Rng) :
  exists (board : list (list Icon)) (g' : Rng),
    createBoard g
      = Ok (board, generateRevealedBoxesData false BOARDWIDTH BOARDHEIGHT, g') /\
    isGrid BOARDWIDTH BOARDHEIGHT board /\
    (forall icon : Icon, icon ∈ concat board -> occurrences icon board = 2%nat).
Proof.
  unfold createBoard.
  destruct (getRandomizedBoard_ok ALLSHAPES ALLCOLORS 10 7 g ltac:(done) fullConfig_ok)
    as (board & g1 & allIcons & Hrun & Hgrid & Hp1 & Hp2 & _).
  change (Z.of_nat 10) with BOARDWIDTH in *. change (Z.of_nat 7) with BOARDHEIGHT in *.
  rewrite Hrun. cbn [Py.bind].
  destruct (startGameAnimation_ok board g1 Hgrid) as [g' ->]. cbn [Py.bind].
  exists board, g'. split; [done|]. split; [done|].
  intros icon Hin. unfold occurrences.
  apply (doubled_occurrences (take (10 * 7 / 2) allIcons)); [|done..].
  eapply sublist_NoDup; [|apply sublist_take]. rewrite Hp1. apply fullCatalog_NoDup.
Qed.

Lemma fresh_round_not_won :
  hasWon (generateRevealedBoxesData false BOARDWIDTH BOARDHEIGHT) = false.
Proof. reflexivity. Qed.

(** X13: [createBoard] never raises: for every sequence of random draws it
    returns a 10 by 7 board in which each icon present occurs exactly twice,
    together with a reveal-state grid of the same dimensions whose cells are
    all hidden, so that the new round is not won. *)
Theorem createBoard_new_round (g : Rng) :
  exists (board : list (list Icon)) (revealed : list (list bool)) (g' : Rng),
    createBoard g = Ok (board, revealed, g') /\
    isGrid BOARDWIDTH BOARDHEIGHT board /\
    (forall icon : Icon, icon ∈ concat board -> occurrences icon board = 2%nat) /\
    isGrid BOARDWIDTH BOARDHEIGHT revealed /\
    (forall box : Box, box ∈ allBoxes -> iconVisible revealed box = Ok false) /\
    hasWon revealed = false.
Proof.
  destruct (createBoard_run g) as (board & g' & Hrun & Hgrid & Hpairs).
  exists board, (generateRevealedBoxesData false BOARDWIDTH BOARDHEIGHT), g'.
  do 3 (split; [done|]).
  assert (isGrid BOARDWIDTH BOARDHEIGHT
                 (generateRevealedBoxesData false BOARDWIDTH BOARDHEIGHT)) as Hr
      by apply (generateRevealedBoxesData_isGrid false).
  split; [done|]. split; [|reflexivity].
  intros box Hbox.
  destruct (iconVisible_inBounds _ box (allBoxes_inBounds _ _ Hr Hbox))
    as (v & Hcell & ->).
  f_equal. unfold cellAt in Hcell.
  destruct (generateRevealedBoxesData false BOARDWIDTH BOARDHEIGHT !! Z.to_nat box.1)
    as [col|] eqn:Hcol; [|done].
  simpl in Hcell.
  apply (generateRevealedBoxesData_cells false BOARDWIDTH BOARDHEIGHT col v).
  - apply list_elem_of_lookup. eauto.
  - apply list_elem_of_lookup. eauto.
Qed.

(** ** handleClick: what a click leaves alone *)

Lemma hide_all_other (boxes : list Box) (revealed revealed' : list (list bool)) (c : Box) :
  for_each (fun s r => setIconVisible r s false) boxes revealed = Ok revealed' ->
  Forall (fun s => 0 <= s.1 /\ 0 <= s.2) boxes ->
  0 <= c.1 -> 0 <= c.2 -> c ∉ boxes ->
  iconVisible revealed' c = iconVisible revealed c.
Proof.
  revert revealed. induction boxes as [|s boxes IH]; intros revealed Hrun Hpos Hc1 Hc2 Hnot.
  - simpl in Hrun. by simplify_eq.
  - simpl in Hrun. bind_ok Hrun.
    apply Forall_cons in Hpos as [[Hs1 Hs2] Hpos].
    apply not_elem_of_cons in Hnot as [Hne Hnot].
    rewrite (IH a Hrun Hpos Hc1 Hc2 Hnot).
    by apply (setIconVisible_other revealed a s c false).
Qed.

Lemma allBoxes_nonneg (box : Box) : box ∈ allBoxes -> 0 <= box.1 /\ 0 <= box.2.
Proof. intros [Hi Hj]%elem_of_allBoxes. lia. Qed.

Lemma handleClick_other (board : list (list Icon)) (pos : Z * Z) (st st' : Game) (c : Box) :
  handleClick board pos st = Ok st' ->
  Forall (fun box => box ∈ allBoxes) (selection st) ->
  0 <= c.1 -> 0 <= c.2 ->
  c ∉ selection st -> getBoxCell pos <> Some c ->
  iconVisible (revealedBoxes st') c = iconVisible (revealedBoxes st) c.
Proof.
  unfold handleClick. intros H Hsel Hc1 Hc2 Hnot Hpos.
  destruct (getBoxCell pos) as [box|] eqn:Hcell; [|by simplify_eq].
  case_bool_decide; [by simplify_eq|].
  destruct (getBoxCell_Some pos box Hcell) as [[Hb1 Hb2]%allBoxes_nonneg _].
  assert (box <> c) as Hne by congruence.
  bind_ok H. rename a into revealed1.
  pose proof (setIconVisible_other _ _ box c true E Hb1 Hb2 Hc1 Hc2 Hne) as Hstep.
  bind_ok H.
  destruct (1 <? len (selection st ++ [box])).
  - repeat bind_ok H. case_bool_decide.
    + by simplify_eq.
    + repeat bind_ok H. simplify_eq. cbn [revealedBoxes]. rewrite <- Hstep.
      match goal with
      | Hrun : for_each _ _ _ = Ok _ |- _ =>
          apply (hide_all_other _ _ _ c Hrun); [|done|done|]
      end.
      * apply Forall_app. split; [|by apply Forall_singleton].
        eapply Forall_impl; [exact Hsel|]. intros s. apply allBoxes_nonneg.
      * rewrite elem_of_app, list_elem_of_singleton. intros [?|?]; congruence.
  - by simplify_eq.
Qed.

(** X14: a completed call of [handleClick] changes the visibility of no box
    other than the one clicked and those in the selection: everywhere else
    [iconVisible] answers as before. *)
Theorem handleClick_frame (board : list (list Icon)) (pos : Z * Z) (st st' : Game)
        (c : Box) :
  handleClick board pos st = Ok st' ->
  Forall (fun box => box ∈ allBoxes) (selection st) ->
  0 <= c.1 -> 0 <= c.2 ->
  c ∉ selection st -> getBoxCell pos <> Some c ->
  iconVisible (revealedBoxes st') c = iconVisible (revealedBoxes st) c.
Proof. apply handleClick_other. Qed.

Lemma handleClick_frame_witness :
  exists st',
    handleClick demoBoard (340, 135)
                (mkGame (withCell demoRevealed (0, 0) true) [(0, 0)] []) = Ok st' /\
    iconVisible (revealedBoxes st') (3, 3)
      = iconVisible (withCell demoRevealed (0, 0) true) (3, 3).
Proof.
  eexists. split; [vm_compute; reflexivity|].
  apply (handleClick_frame demoBoard (340, 135)
           (mkGame (withCell demoRevealed (0, 0) true) [(0, 0)] []) _ (3, 3)).
  - vm_compute. reflexivity.
  - apply Forall_singleton, elem_of_allBoxes. simpl. unfold BOARDWIDTH, BOARDHEIGHT. lia.
  - simpl. lia.
  - simpl. lia.
  - simpl. rewrite list_elem_of_singleton. discriminate.
  - discriminate.
Defined.

Lemma cellAt_iconVisible (revealed : list (list bool)) (box : Box) (v : bool) :
  0 <= box.1 -> 0 <= box.2 ->
  (cellAt revealed box = Some v <-> iconVisible revealed box = Ok v).
Proof.
  intros H1 H2. unfold cellAt, iconVisible, getitem.
  rewrite !wrap_nonneg by done. destruct (Z.ltb_spec box.1 0); [lia|].
  destruct (revealed !! Z.to_nat box.1) as [col|]; simpl; [|split; discriminate].
  rewrite wrap_nonneg by done. destruct (Z.ltb_spec box.2 0); [lia|].
  destruct (col !! Z.to_nat box.2); split; congruence.
Qed.

(** Two picks on different boxes, with the reveal-state grid they end in. *)
Lemma two_picks_state (board : list (list Icon)) (st : Game)
      (posA posB : Z * Z) (a b : Box) :
  getBoxCell posA = Some a -> getBoxCell posB = Some b -> a <> b ->
  selection st = [] ->
  inBounds board a -> inBounds board b ->
  inBounds (revealedBoxes st) a -> inBounds (revealedBoxes st) b ->
  exists iconA iconB st1 st2,
    getShapeAndColor board a = Ok iconA /\ getShapeAndColor board b = Ok iconB /\
    handleClick board posA st = Ok st1 /\ selection st1 = [a] /\
    handleClick board posB st1 = Ok st2 /\ selection st2 = [] /\
    handleClicks board [posA; posB] st = Ok st2 /\
    (iconA = iconB -> lastOutcome st2 = Some Match) /\
    (iconA <> iconB -> lastOutcome st2 = Some Mismatch).
Proof.
  intros HposA HposB Hne Hsel Hba Hbb Hra Hrb.
  set (st1 := mkGame (withCell (revealedBoxes st) a true) [a]
                     (debugLog st ++ [DebugSelection [a]])).
  assert (inBounds (revealedBoxes st1) a) as Hra1 by (by apply inBounds_withCell).
  assert (inBounds (revealedBoxes st1) b) as Hrb1 by (by apply inBounds_withCell).
  pose proof (handleClick_first board posA st a HposA Hsel Hba Hra) as Hfirst.
  fold st1 in Hfirst.
  destruct (handleClick_second board posB st1 a b HposB eq_refl Hne Hba Hbb Hra1 Hrb1)
    as (iconA & iconB & HcA & HcB & Hstep).
  destruct (getShapeAndColor_inBounds board a Hba) as (iconA' & HcA' & HgA).
  destruct (getShapeAndColor_inBounds board b Hbb) as (iconB' & HcB' & HgB).
  simplify_eq. exists iconA, iconB, st1. eexists.
  do 4 (split; [done|]). split; [exact Hstep|].
  split; [by case_bool_decide|]. split.
  { unfold handleClicks. cbn [for_each]. rewrite Hfirst. cbn [Py.bind].
    rewrite Hstep. reflexivity. }
  unfold lastOutcome.
  split; intros Hicons; case_bool_decide; try done;
    cbn [debugLog]; by rewrite last_snoc.
Qed.

(** X15: a mismatch undoes itself.  If two different boxes are both hidden
    and hold different icons, then after picking one and then the other the
    selection is empty again and every box reads as visible or hidden
    exactly as before the two picks. *)
Theorem mismatch_restores_reveal_state (board : list (list Icon)) (st : Game)
        (posA posB : Z * Z) (a b : Box) (iconA iconB : Icon) :
  getBoxCell posA = Some a -> getBoxCell posB = Some b -> a <> b ->
  selection st = [] ->
  getShapeAndColor board a = Ok iconA -> getShapeAndColor board b = Ok iconB ->
  iconA <> iconB ->
  inBounds board a -> inBounds board b ->
  iconVisible (revealedBoxes st) a = Ok false ->
  iconVisible (revealedBoxes st) b = Ok false ->
  inBounds (revealedBoxes st) a -> inBounds (revealedBoxes st) b ->
  exists st2,
    handleClicks board [posA; posB] st = Ok st2 /\
    selection st2 = [] /\
    lastOutcome st2 = Some Mismatch /\
    forall c : Box, 0 <= c.1 -> 0 <= c.2 ->
      iconVisible (revealedBoxes st2) c = iconVisible (revealedBoxes st) c.
Proof.
  intros HposA HposB Hne Hsel HgA HgB Hicons Hba Hbb Hva Hvb Hra Hrb.
  destruct (two_picks_state board st posA posB a b HposA HposB Hne Hsel Hba Hbb Hra Hrb)
    as (iconA' & iconB' & st1 & st2 & HgA' & HgB' & H1 & Hs1 & H2 & Hs2 & Hrun & _ & Hmis).
  assert (iconA' = iconA) as -> by congruence.
  assert (iconB' = iconB) as -> by congruence.
  exists st2. do 2 (split; [done|]). split; [by apply Hmis|].
  destruct (two_picks board st posA posB a b HposA HposB Hne Hsel Hba Hbb Hra Hrb)
    as (iA & iB & st2' & HcA & HcB & Hrun' & _ & _ & Hdiff).
  destruct (getShapeAndColor_inBounds board a Hba) as (iA' & HcA' & HgA'').
  destruct (getShapeAndColor_inBounds board b Hbb) as (iB' & HcB' & HgB'').
  assert (iA = iconA) as -> by congruence.
  assert (iB = iconB) as -> by congruence.
  assert (st2' = st2) as -> by congruence.
  destruct (Hdiff Hicons) as (_ & Hfa & Hfb).
  destruct (inBounds_nonneg _ _ Hra) as [Ha1 Ha2].
  destruct (inBounds_nonneg _ _ Hrb) as [Hb1 Hb2].
  intros c Hc1 Hc2.
  destruct (decide (c = a)) as [->|Hca].
  { rewrite Hva. by apply cellAt_iconVisible. }
  destruct (decide (c = b)) as [->|Hcb].
  { rewrite Hvb. by apply cellAt_iconVisible. }
  rewrite (handleClick_other board posB st1 st2 c H2); try done.
  - rewrite (handleClick_other board posA st st1 c H1); try done.
    + rewrite Hsel. constructor.
    + rewrite Hsel. apply not_elem_of_nil.
    + congruence.
  - rewrite Hs1. apply Forall_singleton.
    by destruct (getBoxCell_Some posA a HposA).
  - rewrite Hs1, list_elem_of_singleton. done.
  - congruence.
Qed.

Lemma mismatch_restores_reveal_state_witness :
  exists st2,
    handleClicks demoBoard [(90, 85); (90, 135)] demoStart = Ok st2 /\
    selection st2 = [] /\
    lastOutcome st2 = Some Mismatch /\
    forall c : Box, 0 <= c.1 -> 0 <= c.2 ->
      iconVisible (revealedBoxes st2) c = iconVisible (revealedBoxes demoStart) c.
Proof.
  apply (mismatch_restores_reveal_state demoBoard demoStart (90, 85) (90, 135)
           (0, 0) (0, 1) (diamond, blue) (donut, yellow));
    try reflexivity; try discriminate;
    apply demo_inBounds; (apply demoBoard_isGrid || apply demoRevealed_isGrid || reflexivity).
Defined.

(** X16: a click in the margin around the grid or in a gap between two
    boxes is ignored: the state comes back unchanged. *)
Theorem handleClick_outside_boxes (board : list (list Icon)) (st : Game) (x y : Z) :
  x < XMARGIN \/ XMARGIN + BOARDWIDTH * (BOXSIZE + GAPSIZE) <= x \/
  BOXSIZE <= (x - XMARGIN) mod (BOXSIZE + GAPSIZE) \/
  y < YMARGIN \/ YMARGIN + BOARDHEIGHT * (BOXSIZE + GAPSIZE) <= y \/
  BOXSIZE <= (y - YMARGIN) mod (BOXSIZE + GAPSIZE) ->
  handleClick board (x, y) st = Ok st.
Proof.
  intros Hout. apply handleClick_miss. rewrite getBoxCell_formula.
  destruct ((XMARGIN <=? x) && (x <? XMARGIN + BOARDWIDTH * (BOXSIZE + GAPSIZE)) &&
            ((x - XMARGIN) mod (BOXSIZE + GAPSIZE) <? BOXSIZE) &&
            (YMARGIN <=? y) && (y <? YMARGIN + BOARDHEIGHT * (BOXSIZE + GAPSIZE)) &&
            ((y - YMARGIN) mod (BOXSIZE + GAPSIZE) <? BOXSIZE)) eqn:Hcond; [|done].
  rewrite !andb_true_iff, !Z.leb_le, !Z.ltb_lt in Hcond. lia.
Qed.

Lemma handleClick_outside_boxes_witness :
  handleClick demoBoard (115, 85) demoStart = Ok demoStart.
Proof.
  apply (handleClick_outside_boxes demoBoard demoStart 115 85).
  right. right. left. vm_compute. discriminate.
Defined.

(** ** Winning *)

Lemma hasWon_cellAt (revealed : list (list bool)) (box : Box) (v : bool) :
  hasWon revealed = true -> cellAt revealed box = Some v -> v = true.
Proof.
  rewrite hasWon_true_Forall, Forall_lookup. intros Hall. unfold cellAt.
  destruct (revealed !! Z.to_nat box.1) as [col|] eqn:Hcol; [|done]. simpl.
  intros Hv. by apply (proj1 (no_false_all_true col) (Hall _ _ Hcol) _ _ Hv).
Qed.

Lemma hasWon_all_cells (revealed : list (list bool)) :
  isGrid BOARDWIDTH BOARDHEIGHT revealed ->
  (forall c : Box, c ∈ allBoxes -> iconVisible revealed c = Ok true) ->
  hasWon revealed = true.
Proof.
  intros [Hw Hh] Hall. apply hasWon_true_Forall, Forall_lookup.
  intros i col Hcol. apply no_false_all_true. intros j v Hv.
  rewrite Forall_lookup in Hh. pose proof (Hh _ _ Hcol) as Hlen.
  pose proof (lookup_lt_Some _ _ _ Hcol) as Hi.
  pose proof (lookup_lt_Some _ _ _ Hv) as Hj.
  assert ((Z.of_nat i, Z.of_nat j) ∈ allBoxes) as Hbox.
  { apply elem_of_allBoxes. unfold len in *. simpl. lia. }
  specialize (Hall _ Hbox).
  apply cellAt_iconVisible in Hall; [|simpl; lia..].
  unfold cellAt in Hall. simpl in Hall. rewrite !Nat2Z.id, Hcol in Hall.
  simpl in Hall. congruence.
Qed.

Lemma for_each_keeps_grid (boxes : list Box) (revealed revealed' : list (list bool))
      (v : bool) (w h : Z) :
  for_each (fun s r => setIconVisible r s v) boxes revealed = Ok revealed' ->
  isGrid w h revealed -> isGrid w h revealed'.
Proof.
  revert revealed. induction boxes as [|s boxes IH]; intros revealed Hrun Hgrid.
  - simpl in Hrun. by simplify_eq.
  - simpl in Hrun. bind_ok Hrun. apply (IH a Hrun).
    by apply (setIconVisible_keeps_grid revealed a s v).
Qed.

Lemma handleClick_keeps_grid (board : list (list Icon)) (pos : Z * Z) (st st' : Game)
      (w h : Z) :
  handleClick board pos st = Ok st' ->
  isGrid w h (revealedBoxes st) -> isGrid w h (revealedBoxes st').
Proof.
  unfold handleClick. intros H Hgrid.
  destruct (getBoxCell pos) as [box|]; [|by simplify_eq].
  case_bool_decide; [by simplify_eq|].
  bind_ok H. rename a into revealed1.
  pose proof (setIconVisible_keeps_grid _ _ _ _ w h E Hgrid) as Hgrid1.
  bind_ok H.
  destruct (1 <? len (selection st ++ [box])).
  - repeat bind_ok H. case_bool_decide.
    + by simplify_eq.
    + repeat bind_ok H. simplify_eq. cbn [revealedBoxes].
      match goal with
      | Hrun : for_each _ _ _ = Ok _ |- _ => by apply (for_each_keeps_grid _ _ _ _ w h Hrun)
      end.
  - by simplify_eq.
Qed.

(** X17: matching the last pair wins the round.  If every box other than
    [a] and [b] is visible and [a] and [b] hold the same icon, then after
    picking [a] and then [b] the outcome is Match and [hasWon] is true. *)
Theorem last_pair_wins (board : list (list Icon)) (st : Game)
        (posA posB : Z * Z) (a b : Box) (icon : Icon) :
  getBoxCell posA = Some a -> getBoxCell posB = Some b -> a <> b ->
  selection st = [] ->
  isGrid BOARDWIDTH BOARDHEIGHT board ->
  isGrid BOARDWIDTH BOARDHEIGHT (revealedBoxes st) ->
  getShapeAndColor board a = Ok icon -> getShapeAndColor board b = Ok icon ->
  (forall c : Box, c ∈ allBoxes -> c <> a -> c <> b ->
                   iconVisible (revealedBoxes st) c = Ok true) ->
  exists st2,
    handleClicks board [posA; posB] st = Ok st2 /\
    lastOutcome st2 = Some Match /\
    hasWon (revealedBoxes st2) = true.
Proof.
  intros HposA HposB Hne Hsel Hb Hr HgA HgB Hrest.
  destruct (getBoxCell_Some posA a HposA) as [Ha _].
  destruct (getBoxCell_Some posB b HposB) as [Hbx _].
  pose proof (allBoxes_inBounds board a Hb Ha) as Hba.
  pose proof (allBoxes_inBounds board b Hb Hbx) as Hbb.
  pose proof (allBoxes_inBounds _ a Hr Ha) as Hra.
  pose proof (allBoxes_inBounds _ b Hr Hbx) as Hrb.
  destruct (two_picks_state board st posA posB a b HposA HposB Hne Hsel Hba Hbb Hra Hrb)
    as (iconA & iconB & st1 & st2 & HgA' & HgB' & H1 & Hs1 & H2 & Hs2 & Hrun & Hmatch & _).
  assert (iconA = icon) as -> by congruence.
  assert (iconB = icon) as -> by congruence.
  destruct (two_picks board st posA posB a b HposA HposB Hne Hsel Hba Hbb Hra Hrb)
    as (iA & iB & st2' & HcA & HcB & Hrun' & _ & Hsame & _).
  destruct (getShapeAndColor_inBounds board a Hba) as (iA' & HcA' & HgA'').
  destruct (getShapeAndColor_inBounds board b Hbb) as (iB' & HcB' & HgB'').
  assert (iA = icon) as -> by congruence.
  assert (iB = icon) as -> by congruence.
  assert (st2' = st2) as -> by congruence.
  destruct (Hsame eq_refl) as (_ & Hta & Htb).
  exists st2. split; [done|]. split; [by apply Hmatch|].
  apply hasWon_all_cells.
  { apply (handleClick_keeps_grid board posB st1 st2 _ _ H2).
    by apply (handleClick_keeps_grid board posA st st1 _ _ H1). }
  intros c Hc. destruct (allBoxes_nonneg c Hc) as [Hc1 Hc2].
  destruct (decide (c = a)) as [->|Hca]; [by apply cellAt_iconVisible|].
  destruct (decide (c = b)) as [->|Hcb]; [by apply cellAt_iconVisible|].
  rewrite (handleClick_other board posB st1 st2 c H2); try done.
  - rewrite (handleClick_other board posA st st1 c H1); try done.
    + by apply Hrest.
    + rewrite Hsel. constructor.
    + rewrite Hsel. apply not_elem_of_nil.
    + congruence.
  - rewrite Hs1. by apply Forall_singleton.
  - rewrite Hs1, list_elem_of_singleton. done.
  - congruence.
Qed.

(** X18: a mismatch never wins.  After picking two different boxes that
    hold different icons, both boxes are hidden, so [hasWon] is false. *)
Theorem mismatch_not_won (board : list (list Icon)) (st : Game)
        (posA posB : Z * Z) (a b : Box) (iconA iconB : Icon) :
  getBoxCell posA = Some a -> getBoxCell posB = Some b -> a <> b ->
  selection st = [] ->
  inBounds board a -> inBounds board b ->
  inBounds (revealedBoxes st) a -> inBounds (revealedBoxes st) b ->
  getShapeAndColor board a = Ok iconA -> getShapeAndColor board b = Ok iconB ->
  iconA <> iconB ->
  exists st2,
    handleClicks board [posA; posB] st = Ok st2 /\
    lastOutcome st2 = Some Mismatch /\
    hasWon (revealedBoxes st2) = false.
Proof.
  intros HposA HposB Hne Hsel Hba Hbb Hra Hrb HgA HgB Hicons.
  destruct (two_picks board st posA posB a b HposA HposB Hne Hsel Hba Hbb Hra Hrb)
    as (iA & iB & st2 & HcA & HcB & Hrun & _ & _ & Hdiff).
  destruct (getShapeAndColor_inBounds board a Hba) as (iA' & HcA' & HgA').
  destruct (getShapeAndColor_inBounds board b Hbb) as (iB' & HcB' & HgB').
  assert (iA = iconA) as -> by congruence.
  assert (iB = iconB) as -> by congruence.
  destruct (Hdiff Hicons) as (Hout & Hfa & _).
  exists st2. do 2 (split; [done|]).
  apply not_true_is_false. intros Hwon.
  by pose proof (hasWon_cellAt _ _ _ Hwon Hfa).
Qed.

Lemma mismatch_not_won_witness :
  exists st2,
    handleClicks demoBoard [(90, 85); (90, 135)] demoStart = Ok st2 /\
    lastOutcome st2 = Some Mismatch /\
    hasWon (revealedBoxes st2) = false.
Proof.
  apply (mismatch_not_won demoBoard demoStart (90, 85) (90, 135)
           (0, 0) (0, 1) (diamond, blue) (donut, yellow));
    try reflexivity; try discriminate;
    apply demo_inBounds; (apply demoBoard_isGrid || apply demoRevealed_isGrid || reflexivity).
Defined.

Lemma last_pair_wins_witness :
  exists st2,
    handleClicks demoBoard [(90, 85); (340, 135)] demoLastPair = Ok st2 /\
    lastOutcome st2 = Some Match /\
    hasWon (revealedBoxes st2) = true.
Proof.
  apply (last_pair_wins demoBoard demoLastPair (90, 85) (340, 135) (0, 0) (5, 1)
           (diamond, blue)); try reflexivity; try discriminate.
  - apply demoBoard_isGrid.
  - split; [reflexivity|]. repeat constructor.
  - intros c Hc Hca Hcb.
    assert (forallb (fun c => bool_decide (c = (0, 0)) || bool_decide (c = (5, 1)) ||
                              match iconVisible (revealedBoxes demoLastPair) c with
                              | Ok true => true
                              | _ => false
                              end) allBoxes = true) as Hall by (vm_compute; reflexivity).
    rewrite forallb_forall in Hall.
    specialize (Hall c (proj1 (list_elem_of_In _ _) Hc)). cbv beta in Hall.
    rewrite !orb_true_iff, !bool_decide_eq_true in Hall.
    destruct Hall as [[?|?]|Hvis]; [done|done|].
    destruct (iconVisible (revealedBoxes demoLastPair) c) as [[]|]; done.
Defined.

(** ** The main loop *)

Lemma doBoxHighlight_ok (revealed : list (list bool)) (pos : Z * Z) :
  isGrid BOARDWIDTH BOARDHEIGHT revealed ->
  exists box, doBoxHighlight revealed pos = Ok box.
Proof.
  intros Hr. unfold doBoxHighlight.
  destruct (getBoxCell pos) as [box|] eqn:Hcell; [|eauto].
  destruct (getBoxCell_Some pos box Hcell) as [Hbox _].
  destruct (iconVisible_inBounds revealed box (allBoxes_inBounds _ _ Hr Hbox))
    as (v & _ & ->).
  cbn [Py.bind]. destruct v; simpl; eauto.
Qed.

Lemma gameWonAnimation_ok (board : list (list Icon)) (log : list MainLogRecord) :
  isGrid BOARDWIDTH BOARDHEIGHT board ->
  exists log', gameWonAnimation board log = Ok log'.
Proof.
  intros Hb. unfold gameWonAnimation.
  rewrite for_each_unit_ok; [cbn [Py.bind]; eauto|].
  intros color _. apply drawBoard_ok; [done|].
  apply (generateRevealedBoxesData_isGrid true).
Qed.

Lemma pollEvents_quit (events : list Event) (pos : Z * Z) (clicked : bool) :
  QUIT ∈ events -> pollEvents events pos clicked = None.
Proof.
  revert pos clicked. induction events as [|event events IH]; intros pos clicked Hin.
  - by apply elem_of_nil in Hin.
  - apply elem_of_cons in Hin as [<-|Hin]; [done|].
    destruct event; simpl; auto.
Qed.

Lemma pollEvents_no_quit (events : list Event) (pos : Z * Z) (clicked : bool) :
  QUIT ∉ events ->
  pollEvents events pos clicked
    = Some (lastMousePos events pos, clicked || hasClick events).
Proof.
  unfold lastMousePos, hasClick.
  revert pos clicked. induction events as [|event events IH]; intros pos clicked Hnot.
  - simpl. by rewrite orb_false_r.
  - apply not_elem_of_cons in Hnot as [Hne Hnot].
    destruct event; simpl; try done; rewrite IH by done; try done.
    by rewrite orb_true_r.
Qed.

(** One frame from a state that satisfies the invariant. *)
Lemma mainFrame_run (events : list Event) (st : Main) :
  mainInv st ->
  match pollEvents events (mousePos st) false with
  | None => mainFrame events st = Ok None
  | Some (pos, clicked) =>
      exists game st',
        (if clicked : bool
         then handleClick (mainBoard st) pos
                          (mkGame (mainRevealed st) (mainSelection st) [])
         else Ok (mkGame (mainRevealed st) (mainSelection st) [])) = Ok game /\
        mainFrame events st = Ok (Some st') /\
        mousePos st' = pos /\
        mainSelection st' = selection game /\
        mainInv st' /\
        hasWon (mainRevealed st') = false /\
        (hasWon (revealedBoxes game) = false ->
         mainBoard st' = mainBoard st /\ mainRevealed st' = revealedBoxes game /\
         mainRng st' = mainRng st) /\
        (hasWon (revealedBoxes game) = true ->
         createBoard (mainRng st) = Ok (mainBoard st', mainRevealed st', mainRng st'))
  end.
Proof.
  intros (Hb & Hr & Hsmall & Hsel). unfold mainFrame.
  rewrite (drawBoard_ok _ _ Hb Hr). cbn [Py.bind].
  destruct (pollEvents events (mousePos st) false) as [[pos clicked]|]; [|done].
  destruct (doBoxHighlight_ok (mainRevealed st) pos Hr) as [hl ->]. cbn [Py.bind].
  assert (exists game,
            (if clicked : bool
             then handleClick (mainBoard st) pos
                              (mkGame (mainRevealed st) (mainSelection st) [])
             else Ok (mkGame (mainRevealed st) (mainSelection st) [])) = Ok game /\
            isGrid BOARDWIDTH BOARDHEIGHT (revealedBoxes game) /\
            (length (selection game) <= 1)%nat /\
            Forall (fun box => box ∈ allBoxes) (selection game))
    as (game & Hgame & Hr' & Hsmall' & Hsel').
  { destruct clicked; [|by eexists].
    by apply handleClick_total. }
  exists game. rewrite Hgame. cbn [Py.bind].
  destruct (hasWon (revealedBoxes game)) eqn:Hwon.
  - destruct (gameWonAnimation_ok (mainBoard st)
                (mainLog st ++ (ClickLog <$> debugLog game)) Hb) as [log' ->].
    cbn [Py.bind].
    destruct (createBoard_run (mainRng st)) as (board & g' & -> & Hb' & _).
    cbn [Py.bind]. eexists. split; [done|]. split; [reflexivity|].
    cbn [mousePos mainSelection mainBoard mainRevealed mainRng].
    split; [done|]. split; [done|]. split.
    + split; [done|]. split; [|done].
      apply (generateRevealedBoxesData_isGrid false).
    + split; [reflexivity|]. split; done.
  - eexists. split; [done|]. split; [reflexivity|].
    cbn [mousePos mainSelection mainBoard mainRevealed mainRng].
    split; [done|]. split; [done|]. split; [done|]. split; [done|]. split; done.
Qed.

Lemma pollEvents_None (events : list Event) (pos : Z * Z) (clicked : bool) :
  pollEvents events pos clicked = None <-> QUIT ∈ events.
Proof.
  split; [|apply pollEvents_quit].
  intros Hnone. destruct (decide (QUIT ∈ events)) as [|Hnot]; [done|].
  by rewrite pollEvents_no_quit in Hnone.
Qed.

Lemma mainLoop_run (frames : list (list Event)) (st : Main) :
  mainInv st -> hasWon (mainRevealed st) = false ->
  exists result,
    mainLoop frames st = Ok result /\
    (result = None <-> Exists (fun events => QUIT ∈ events) frames) /\
    (forall st', result = Some st' -> mainInv st' /\ hasWon (mainRevealed st') = false).
Proof.
  revert st. induction frames as [|events frames IH]; intros st Hinv Hnot; simpl.
  - exists (Some st). split; [done|]. split.
    + split; [done|]. by intros ?%Exists_nil.
    + by intros st' [= <-].
  - pose proof (mainFrame_run events st Hinv) as Hframe.
    destruct (pollEvents events (mousePos st) false) as [[pos clicked]|] eqn:Hpoll.
    + destruct Hframe as (game & st1 & _ & -> & _ & _ & Hinv1 & Hnot1 & _).
      cbn [Py.bind].
      destruct (IH st1 Hinv1 Hnot1) as (result & -> & Hquit & Hsome).
      exists result. split; [done|]. split; [|done].
      rewrite Hquit, Exists_cons. split; [by right|].
      intros [Hq|?]; [|done].
      apply pollEvents_None with (pos := mousePos st) (clicked := false) in Hq.
      congruence.
    + rewrite Hframe. cbn [Py.bind]. exists None. split; [done|]. split; [|done].
      split; [|done]. intros _. apply Exists_cons. left.
      by apply (pollEvents_None events (mousePos st) false).
Qed.

(** X19: [main] never raises.  Whatever the random draws and whatever the
    events of each frame, the loop either reaches the end of the frames with
    a board and a reveal-state grid of 10 by 7, a selection of at most one
    box of the grid and a round that is not won, or it has exited; and it
    exits exactly when some frame holds a [QUIT] event. *)
Theorem main_never_raises (g : Rng) (frames : list (list Event)) :
  exists result,
    main g frames = Ok result /\
    (result = None <-> Exists (fun events => QUIT ∈ events) frames) /\
    (forall st, result = Some st -> mainInv st /\ hasWon (mainRevealed st) = false).
Proof.
  unfold main.
  destruct (createBoard_run g) as (board & g' & -> & Hb & _). cbn [Py.bind].
  apply mainLoop_run; [|reflexivity].
  split; [done|]. split; [apply (generateRevealedBoxesData_isGrid false)|].
  split; [simpl; lia|constructor].
Qed.

(** X20: at most one click is handled per frame, and it is handled where
    the pointer is after the last mouse event of the frame: with a button
    release among the events and no [QUIT], the frame calls [handleClick]
    once, at the position of the last motion or release event, and takes
    over its selection; unless that click wins the round, it also takes over
    its reveal-state and keeps the board. *)
Theorem mainFrame_click_position (events : list Event) (st : Main) :
  mainInv st ->
  QUIT ∉ events ->
  hasClick events = true ->
  exists game st',
    handleClick (mainBoard st) (lastMousePos events (mousePos st))
                (mkGame (mainRevealed st) (mainSelection st) []) = Ok game /\
    mainFrame events st = Ok (Some st') /\
    mousePos st' = lastMousePos events (mousePos st) /\
    mainSelection st' = selection game /\
    (hasWon (revealedBoxes game) = false ->
     mainBoard st' = mainBoard st /\ mainRevealed st' = revealedBoxes game).
Proof.
  intros Hinv Hquit Hclick.
  pose proof (mainFrame_run events st Hinv) as Hframe.
  rewrite (pollEvents_no_quit events (mousePos st) false Hquit), Hclick in Hframe.
  destruct Hframe as (game & st' & Hgame & Hrun & Hpos & Hsel & _ & _ & Hsame & _).
  exists game, st'. do 4 (split; [done|]).
  intros Hnot. by destruct (Hsame Hnot) as (? & ? & _).
Qed.

Lemma mainFrame_click_position_witness :
  exists game st',
    handleClick demoBoard (340, 135) (mkGame demoRevealed [] []) = Ok game /\
    mainFrame [MOUSEBUTTONUP (90, 85); OtherEvent; MOUSEMOTION (340, 135)] demoMain
      = Ok (Some st') /\
    mousePos st' = (340, 135) /\
    mainSelection st' = selection game /\
    (hasWon (revealedBoxes game) = false ->
     mainBoard st' = demoBoard /\ mainRevealed st' = revealedBoxes game).
Proof.
  apply (mainFrame_click_position
           [MOUSEBUTTONUP (90, 85); OtherEvent; MOUSEMOTION (340, 135)] demoMain).
  - split; [apply demoBoard_isGrid|]. split; [apply demoRevealed_isGrid|].
    split; [simpl; lia|constructor].
  - intros Hin. by repeat (apply elem_of_cons in Hin as [?|Hin]; [done|]);
                  apply elem_of_nil in Hin.
  - reflexivity.
Defined.

(** X21: a frame without a button release and without [QUIT], in a round
    that is not won, changes nothing but the pointer position. *)
Theorem mainFrame_without_click (events : list Event) (st : Main) :
  mainInv st ->
  hasWon (mainRevealed st) = false ->
  QUIT ∉ events ->
  hasClick events = false ->
  mainFrame events st
    = Ok (Some (mkMain (lastMousePos events (mousePos st)) (mainBoard st)
                       (mainRevealed st) (mainSelection st) (mainLog st) (mainRng st))).
Proof.
  intros (Hb & Hr & _) Hnot Hquit Hclick. unfold mainFrame.
  rewrite (drawBoard_ok _ _ Hb Hr). cbn [Py.bind].
  rewrite (pollEvents_no_quit events (mousePos st) false Hquit), Hclick.
  destruct (doBoxHighlight_ok (mainRevealed st) (lastMousePos events (mousePos st)) Hr)
    as [hl ->].
  cbn [Py.bind orb revealedBoxes selection debugLog]. rewrite Hnot.
  by rewrite fmap_nil, app_nil_r.
Qed.

Lemma mainFrame_without_click_witness :
  mainFrame [MOUSEMOTION (90, 85); OtherEvent] demoMain
    = Ok (Some (mkMain (lastMousePos [MOUSEMOTION (90, 85); OtherEvent] (0, 0))
                       demoBoard demoRevealed [] [] [])).
Proof.
  apply (mainFrame_without_click [MOUSEMOTION (90, 85); OtherEvent] demoMain).
  - split; [apply demoBoard_isGrid|]. split; [apply demoRevealed_isGrid|].
    split; [simpl; lia|constructor].
  - reflexivity.
  - intros Hin. by repeat (apply elem_of_cons in Hin as [?|Hin]; [done|]);
                  apply elem_of_nil in Hin.
  - reflexivity.
Defined.

(** X22: the frame in which the round is won starts the next round: when
    the click handled in a frame leaves every box visible, the frame ends
    with the board and the reveal-state grid of a fresh [createBoard], a
    paired board with every box hidden, and with the selection the click
    left. *)
Theorem mainFrame_win_starts_round (events : list Event) (st : Main) (game : Game) :
  mainInv st ->
  QUIT ∉ events ->
  hasClick events = true ->
  handleClick (mainBoard st) (lastMousePos events (mousePos st))
              (mkGame (mainRevealed st) (mainSelection st) []) = Ok game ->
  hasWon (revealedBoxes game) = true ->
  exists st',
    mainFrame events st = Ok (Some st') /\
    createBoard (mainRng st) = Ok (mainBoard st', mainRevealed st', mainRng st') /\
    mainRevealed st' = generateRevealedBoxesData false BOARDWIDTH BOARDHEIGHT /\
    (forall icon : Icon, icon ∈ concat (mainBoard st') ->
                         occurrences icon (mainBoard st') = 2%nat) /\
    hasWon (mainRevealed st') = false /\
    mainSelection st' = selection game.
Proof.
  intros Hinv Hquit Hclick Hgame Hwon.
  pose proof (mainFrame_run events st Hinv) as Hframe.
  rewrite (pollEvents_no_quit events (mousePos st) false Hquit), Hclick in Hframe.
  destruct Hframe as (game' & st' & Hgame' & Hrun & _ & Hsel & _ & Hnot & _ & Hnew).
  cbn [orb] in Hgame'. assert (game' = game) as -> by congruence.
  exists st'. split; [done|]. specialize (Hnew Hwon). split; [done|].
  destruct (createBoard_run (mainRng st)) as (board & g' & Hcreate & _ & Hpairs).
  rewrite Hcreate in Hnew. injection Hnew as Hboard Hrevealed _.
  rewrite <- Hboard, <- Hrevealed. done.
Qed.

Lemma mainFrame_win_starts_round_witness :
  exists st',
    mainFrame [MOUSEBUTTONUP (340, 135)] demoMainLastPick = Ok (Some st') /\
    createBoard demoEntropy = Ok (mainBoard st', mainRevealed st', mainRng st') /\
    mainRevealed st' = generateRevealedBoxesData false BOARDWIDTH BOARDHEIGHT /\
    (forall icon : Icon, icon ∈ concat (mainBoard st') ->
                         occurrences icon (mainBoard st') = 2%nat) /\
    hasWon (mainRevealed st') = false /\
    mainSelection st' = [].
Proof.
  apply (mainFrame_win_starts_round [MOUSEBUTTONUP (340, 135)] demoMainLastPick
           (mkGame (generateRevealedBoxesData true BOARDWIDTH BOARDHEIGHT) []
                   [DebugSelection [(0, 0); (5, 1)]; DebugMatch])).
  - split; [apply demoBoard_isGrid|]. split; [split; [reflexivity|repeat constructor]|].
    split; [simpl; lia|].
    apply Forall_singleton, elem_of_allBoxes. simpl. unfold BOARDWIDTH, BOARDHEIGHT. lia.
  - intros Hin. by repeat (apply elem_of_cons in Hin as [?|Hin]; [done|]);
                  apply elem_of_nil in Hin.
  - reflexivity.
  - vm_compute. reflexivity.
  - reflexivity.
Defined.
